(** * ElectronApiServiceImpl: message gating and channel binding

    A shallow embedding of [shell/renderer/electron_api_service_impl.cc].
    The C++ object is a record of its four data members; every [void]
    method is a function from the state before the call to the state
    after it.  The state also carries what the methods read from, or do
    to, their surroundings: the web frame behind [render_frame()], the
    calls made into the JavaScript world, and the mojo endpoints bound
    and closed. *)

From Stdlib Require Import List String ZArith Bool Lia.
From Stdlib Require Import Permutation.
Import ListNotations.
Open Scope string_scope.
Open Scope list_scope.

Set Implicit Arguments.
Set Warnings "-register-all".

(** The callback installed by [set_disconnect_handler]; the source only
    ever installs [&ElectronApiServiceImpl::OnConnectionError]. *)
Inductive DisconnectHandler : Type :=
| OnConnectionErrorHandler.

(** [v8::Local<v8::Value>], as far as [gin::ConvertToV8] builds it here;
    [V8Object] is the type of the objects the embedder hands over. *)
Inductive V8Value (V8Object : Type) : Type :=
| V8Boolean (b : bool)
| V8String (s : string)
| V8Int32 (n : Z)
| V8Array (elements : list (V8Value V8Object))
| V8Obj (o : V8Object).

Arguments V8Boolean {V8Object} b.
Arguments V8String {V8Object} s.
Arguments V8Int32 {V8Object} n.
Arguments V8Array {V8Object} elements.
Arguments V8Obj {V8Object} o.

(** ** External collaborators

    Types and functions the translation unit uses but does not define. *)
Class Collaborators : Type := {
  (** [blink::CloneableMessage], the serialized payload of a message *)
  CloneableMessage : Type;
  (** what a [CloneableMessage] variable holds after [std::move] took its
      value away; C++ leaves this state unspecified, so it stays abstract *)
  moved_from : CloneableMessage -> CloneableMessage;
  (** [blink::MessagePortDescriptor], one element of [message.ports] *)
  MessagePortDescriptor : Type;
  (** a valid [mojo::PendingAssociatedReceiver<mojom::ElectronRenderer>] *)
  PendingReceiver : Type;
  (** [blink::WebLocalFrame], [v8::Context] and [v8::Object] *)
  WebLocalFrame : Type;
  V8Context : Type;
  V8Object : Type;
  (** [renderer_client_->GetContext(frame, isolate)] *)
  GetContext : WebLocalFrame -> V8Context;
  (** [GetIpcObject(context)]: the private [ipcNative] object of the
      context's global, [None] for the empty handle it returns when the
      object is missing *)
  GetIpcObject : V8Context -> option V8Object;
  (** [gin::ConvertToV8(isolate, arguments)] on a [CloneableMessage] *)
  ConvertToV8_CloneableMessage : CloneableMessage -> V8Value V8Object;
  (** [DeserializeV8Value(isolate, message)] *)
  DeserializeV8Value : CloneableMessage -> V8Value V8Object;
  (** [WebMessagePortConverter::EntangleAndInjectMessagePortChannel] *)
  EntangleAndInjectMessagePortChannel :
    V8Context -> MessagePortDescriptor -> V8Value V8Object
}.

Section Service.

Context {env : Collaborators}.

Local Abbreviation V8Value := (V8Value V8Object).

(** ** Data *)

(** [blink::TransferableMessage]: a [CloneableMessage] with ports. *)
Record TransferableMessage : Type := {
  cloneable : CloneableMessage;
  ports : list MessagePortDescriptor
}.

(** [PendingElectronApiServiceMessage]. *)
Record PendingElectronApiServiceMessage : Type := {
  internal : bool;
  channel : string;
  arguments : CloneableMessage;
  sender_id : Z
}.

(** [mojo::AssociatedReceiver<mojom::ElectronRenderer>]. *)
Record AssociatedReceiver : Type := {
  bound_endpoint : option PendingReceiver;
  disconnect_handler : option DisconnectHandler
}.

Definition unbound_receiver : AssociatedReceiver :=
  {| bound_endpoint := None; disconnect_handler := None |}.

Definition is_bound (r : AssociatedReceiver) : bool :=
  match bound_endpoint r with Some _ => true | None => false end.

(** One [callback->Call(context, ipcNative, argc, argv)]. *)
Record FunctionCall : Type := {
  call_context : V8Context;
  call_receiver : V8Object;
  call_name : string;
  call_argv : list V8Value
}.

(** What happened to a mojo endpoint. *)
Inductive MojoEvent : Type :=
| EndpointClosed (e : PendingReceiver)
| EndpointBound (e : PendingReceiver).

(** The data members of [ElectronApiServiceImpl], then its surroundings. *)
Record State : Type := {
  document_created_ : bool;
  pending_messages_ : list PendingElectronApiServiceMessage;
  receiver_ : AssociatedReceiver;
  pending_receiver_ : option PendingReceiver;
  (** [render_frame()->GetWebFrame()], [None] for a null pointer *)
  web_frame : option WebLocalFrame;
  (** calls made into the destination context, oldest first *)
  js_calls : list FunctionCall;
  (** endpoints bound and closed, oldest first *)
  mojo_log : list MojoEvent
}.

(** A freshly constructed service: [document_created_ = false], an empty
    queue, nothing bound. *)
Definition initial (frame : option WebLocalFrame) : State :=
  {| document_created_ := false;
     pending_messages_ := [];
     receiver_ := unbound_receiver;
     pending_receiver_ := None;
     web_frame := frame;
     js_calls := [];
     mojo_log := [] |}.

Definition set_document_created_ (b : bool) (s : State) : State :=
  {| document_created_ := b;
     pending_messages_ := pending_messages_ s;
     receiver_ := receiver_ s;
     pending_receiver_ := pending_receiver_ s;
     web_frame := web_frame s;
     js_calls := js_calls s;
     mojo_log := mojo_log s |}.

Definition set_pending_messages_
  (q : list PendingElectronApiServiceMessage) (s : State) : State :=
  {| document_created_ := document_created_ s;
     pending_messages_ := q;
     receiver_ := receiver_ s;
     pending_receiver_ := pending_receiver_ s;
     web_frame := web_frame s;
     js_calls := js_calls s;
     mojo_log := mojo_log s |}.

Definition set_receiver_ (r : AssociatedReceiver) (s : State) : State :=
  {| document_created_ := document_created_ s;
     pending_messages_ := pending_messages_ s;
     receiver_ := r;
     pending_receiver_ := pending_receiver_ s;
     web_frame := web_frame s;
     js_calls := js_calls s;
     mojo_log := mojo_log s |}.

Definition set_pending_receiver_
  (p : option PendingReceiver) (s : State) : State :=
  {| document_created_ := document_created_ s;
     pending_messages_ := pending_messages_ s;
     receiver_ := receiver_ s;
     pending_receiver_ := p;
     web_frame := web_frame s;
     js_calls := js_calls s;
     mojo_log := mojo_log s |}.

Definition set_web_frame (f : option WebLocalFrame) (s : State) : State :=
  {| document_created_ := document_created_ s;
     pending_messages_ := pending_messages_ s;
     receiver_ := receiver_ s;
     pending_receiver_ := pending_receiver_ s;
     web_frame := f;
     js_calls := js_calls s;
     mojo_log := mojo_log s |}.

Definition record_call (c : FunctionCall) (s : State) : State :=
  {| document_created_ := document_created_ s;
     pending_messages_ := pending_messages_ s;
     receiver_ := receiver_ s;
     pending_receiver_ := pending_receiver_ s;
     web_frame := web_frame s;
     js_calls := js_calls s ++ [c];
     mojo_log := mojo_log s |}.

Definition record_mojo (e : MojoEvent) (s : State) : State :=
  {| document_created_ := document_created_ s;
     pending_messages_ := pending_messages_ s;
     receiver_ := receiver_ s;
     pending_receiver_ := pending_receiver_ s;
     web_frame := web_frame s;
     js_calls := js_calls s;
     mojo_log := mojo_log s ++ [e] |}.

(** ** The mojo receiver *)

(** [receiver_.reset()]: closes the bound endpoint and forgets the
    disconnect handler; nothing to close when unbound. *)
Definition receiver_reset (s : State) : State :=
  match bound_endpoint (receiver_ s) with
  | Some e => record_mojo (EndpointClosed e) (set_receiver_ unbound_receiver s)
  | None => set_receiver_ unbound_receiver s
  end.

(** [receiver_.Bind(std::move(p))]: a newly bound endpoint has no
    disconnect handler yet. *)
Definition receiver_Bind (p : PendingReceiver) (s : State) : State :=
  record_mojo (EndpointBound p)
    (set_receiver_ {| bound_endpoint := Some p;
                      disconnect_handler := None |} s).

(** [receiver_.set_disconnect_handler(h)]. *)
Definition receiver_set_disconnect_handler
  (h : DisconnectHandler) (s : State) : State :=
  set_receiver_ {| bound_endpoint := bound_endpoint (receiver_ s);
                   disconnect_handler := Some h |} s.

(** [pending_receiver_ = std::move(receiver)]: the move assignment
    closes the endpoint the slot held before. *)
Definition assign_pending_receiver_ (p : PendingReceiver) (s : State) : State :=
  match pending_receiver_ s with
  | Some old => record_mojo (EndpointClosed old) (set_pending_receiver_ (Some p) s)
  | None => set_pending_receiver_ (Some p) s
  end.

(** ** The anonymous namespace *)

(** [InvokeIpcCallback]: returns early when [GetIpcObject] finds no
    [ipcNative]; otherwise calls the property [callback_name] of it. *)
Definition InvokeIpcCallback
  (context : V8Context) (callback_name : string) (args : list V8Value)
  (s : State) : State :=
  match GetIpcObject context with
  | None => s
  | Some ipcNative =>
      record_call {| call_context := context;
                     call_receiver := ipcNative;
                     call_name := callback_name;
                     call_argv := args |} s
  end.

(** [EmitIPCEvent]. *)
Definition EmitIPCEvent
  (context : V8Context) (internal' : bool) (channel' : string)
  (ports' : list V8Value) (args : V8Value) (sender_id' : Z)
  (s : State) : State :=
  let argv := [V8Boolean internal'; V8String channel'; V8Array ports'; args;
               V8Int32 sender_id'] in
  InvokeIpcCallback context "onMessage" argv s.

(** ** The methods *)

(** [ElectronApiServiceImpl::BindTo]. *)
Definition BindTo (receiver : PendingReceiver) (s : State) : State :=
  if document_created_ s then
    let s1 := if is_bound (receiver_ s) then receiver_reset s else s in
    let s2 := receiver_Bind receiver s1 in
    receiver_set_disconnect_handler OnConnectionErrorHandler s2
  else
    assign_pending_receiver_ receiver s.

(** [ElectronApiServiceImpl::DidCreateDocumentElement].  Moving out of
    [pending_receiver_] leaves the slot invalid, that is [None]. *)
Definition DidCreateDocumentElement (s : State) : State :=
  let s0 := set_document_created_ true s in
  match pending_receiver_ s0 with
  | Some p =>
      let s1 := if is_bound (receiver_ s0) then receiver_reset s0 else s0 in
      let s2 := receiver_Bind p (set_pending_receiver_ None s1) in
      receiver_set_disconnect_handler OnConnectionErrorHandler s2
  | None => s0
  end.

(** [ElectronApiServiceImpl::OnConnectionError]. *)
Definition OnConnectionError (s : State) : State :=
  if is_bound (receiver_ s) then receiver_reset s else s.

(** The transport notices that the remote end of the bound endpoint is
    gone and runs the disconnect handler, if one is installed. *)
Definition remote_end_lost (s : State) : State :=
  match bound_endpoint (receiver_ s), disconnect_handler (receiver_ s) with
  | Some _, Some OnConnectionErrorHandler => OnConnectionError s
  | _, _ => s
  end.

(** [ElectronApiServiceImpl::Message].  The [if (!document_created_)]
    block pushes the message and has no [return]: control goes on to the
    frame check, with [arguments] moved from. *)
Definition Message
  (internal' : bool) (channel' : string) (arguments' : CloneableMessage)
  (sender_id' : Z) (s : State) : State :=
  let '(s1, arguments1) :=
    if negb (document_created_ s) then
      let message := {| internal := internal';
                        channel := channel';
                        arguments := arguments';
                        sender_id := sender_id' |} in
      (set_pending_messages_ (pending_messages_ s ++ [message]) s,
       moved_from arguments')
    else (s, arguments') in
  match web_frame s1 with
  | None => s1
  | Some frame =>
      let context := GetContext frame in
      let args := ConvertToV8_CloneableMessage arguments1 in
      EmitIPCEvent context internal' channel' [] args sender_id' s1
  end.

(** The loop of [ElectronApiServiceImpl::ProcessPendingMessages]; every
    unit of [fuel] pays for one iteration, [None] is fuel run out. *)
Fixpoint ProcessPendingMessages_loop (fuel : nat) (s : State) : option State :=
  match pending_messages_ s with
  | [] => Some s
  | msg :: rest =>
      match fuel with
      | O => None
      | S fuel' =>
          ProcessPendingMessages_loop fuel'
            (Message (internal msg) (channel msg) (arguments msg)
               (sender_id msg) (set_pending_messages_ rest s))
      end
  end.

(** [ElectronApiServiceImpl::ProcessPendingMessages], with one iteration
    for each message queued at entry. *)
Definition ProcessPendingMessages (s : State) : option State :=
  ProcessPendingMessages_loop (List.length (pending_messages_ s)) s.

(** [ElectronApiServiceImpl::ReceivePostMessage]. *)
Definition ReceivePostMessage
  (channel' : string) (message : TransferableMessage) (s : State) : State :=
  match web_frame s with
  | None => s
  | Some frame =>
      let context := GetContext frame in
      let message_value := DeserializeV8Value (cloneable message) in
      let ports' :=
        map (EntangleAndInjectMessagePortChannel context) (ports message) in
      let args := [message_value] in
      EmitIPCEvent context false channel' ports' (V8Array args) 0%Z s
  end.

(** ** Derived notions, used to state the properties *)

(** The call of [onMessage] that [EmitIPCEvent] makes on [ipcNative]. *)
Definition onMessage_call
  (context : V8Context) (ipcNative : V8Object) (internal' : bool)
  (channel' : string) (ports' : list V8Value) (args : V8Value)
  (sender_id' : Z) : FunctionCall :=
  {| call_context := context;
     call_receiver := ipcNative;
     call_name := "onMessage";
     call_argv := [V8Boolean internal'; V8String channel'; V8Array ports';
                   args; V8Int32 sender_id'] |}.

(** The call a message is delivered with by [Message]: no ports, the
    payload converted by gin. *)
Definition delivery_of
  (frame : WebLocalFrame) (ipcNative : V8Object)
  (m : PendingElectronApiServiceMessage) : FunctionCall :=
  onMessage_call (GetContext frame) ipcNative (internal m) (channel m) []
    (ConvertToV8_CloneableMessage (arguments m)) (sender_id m).

(** The same message with its payload in the moved-from state. *)
Definition with_moved_arguments
  (m : PendingElectronApiServiceMessage) : PendingElectronApiServiceMessage :=
  {| internal := internal m;
     channel := channel m;
     arguments := moved_from (arguments m);
     sender_id := sender_id m |}.

(** The transport calls [Message] with the fields of [m]. *)
Definition send (m : PendingElectronApiServiceMessage) (s : State) : State :=
  Message (internal m) (channel m) (arguments m) (sender_id m) s.

(** The transport calls [Message] for each message of [ms], in order. *)
Definition send_all
  (ms : list PendingElectronApiServiceMessage) (s : State) : State :=
  fold_left (fun st m => send m st) ms s.

(** The events closing an endpoint held in an optional slot. *)
Definition closed_of (slot : option PendingReceiver) : list MojoEvent :=
  match slot with
  | Some e => [EndpointClosed e]
  | None => []
  end.

(** The state the service settles in after readiness: the gate is open
    and the pending slot is empty. *)
Definition steady (s : State) : Prop :=
  document_created_ s = true /\ pending_receiver_ s = None.

(** ** The service as a transition system *)

(** One entry into the service from outside. *)
Inductive Call : Type :=
| CallBindTo (receiver : PendingReceiver)
| CallDidCreateDocumentElement
| CallProcessPendingMessages
| CallOnConnectionError
| CallRemoteEndLost
| CallMessage (internal' : bool) (channel' : string)
    (arguments' : CloneableMessage) (sender_id' : Z)
| CallReceivePostMessage (channel' : string) (message : TransferableMessage).

(** The state after one call; [None] only when the drain loop does not
    come to an end. *)
Definition step (c : Call) (s : State) : option State :=
  match c with
  | CallBindTo receiver => Some (BindTo receiver s)
  | CallDidCreateDocumentElement => Some (DidCreateDocumentElement s)
  | CallProcessPendingMessages => ProcessPendingMessages s
  | CallOnConnectionError => Some (OnConnectionError s)
  | CallRemoteEndLost => Some (remote_end_lost s)
  | CallMessage i c' a sid => Some (Message i c' a sid s)
  | CallReceivePostMessage c' m => Some (ReceivePostMessage c' m s)
  end.

Fixpoint run (cs : list Call) (s : State) : option State :=
  match cs with
  | [] => Some s
  | c :: cs' =>
      match step c s with
      | Some s' => run cs' s'
      | None => None
      end
  end.

End Service.

(** ** A concrete instance

    Payloads are strings delivered as JavaScript strings, endpoints and
    ports are numbered, there is one frame with one context, and
    [ipcNative] is registered in it. *)
Module Sample.

Definition env (moved : string -> string) : Collaborators :=
  {| CloneableMessage := string;
     moved_from := moved;
     MessagePortDescriptor := nat;
     PendingReceiver := nat;
     WebLocalFrame := unit;
     V8Context := unit;
     V8Object := string;
     GetContext := fun _ => tt;
     GetIpcObject := fun _ => Some "ipcNative";
     ConvertToV8_CloneableMessage := fun a => V8String a;
     DeserializeV8Value := fun a => V8String a;
     EntangleAndInjectMessagePortChannel :=
       fun _ p => V8Array [V8String "MessagePort"; V8Int32 (Z.of_nat p)] |}.

(** The instance where a moved-from payload is the empty string. *)
Definition env0 : Collaborators := env (fun _ => "").

(** The message of the spec's concrete scenario. *)
Definition ping (moved : string -> string) :
  @PendingElectronApiServiceMessage (env moved) :=
  {| internal := false;
     channel := "ping";
     arguments := "x" : @CloneableMessage (env moved);
     sender_id := 5%Z |}.

(** A second message, on an internal channel. *)
Definition pong (moved : string -> string) :
  @PendingElectronApiServiceMessage (env moved) :=
  {| internal := true;
     channel := "pong";
     arguments := "y" : @CloneableMessage (env moved);
     sender_id := 7%Z |}.

(** A new service on a live frame. *)
Definition fresh (moved : string -> string) : @State (env moved) :=
  @initial (env moved) (Some tt).

(** The fresh service after [ping] came in through [Message]. *)
Definition buffered (moved : string -> string) : @State (env moved) :=
  @send (env moved) (ping moved) (fresh moved).

(** The same, after [DidCreateDocumentElement]. *)
Definition flipped (moved : string -> string) : @State (env moved) :=
  @DidCreateDocumentElement (env moved) (buffered moved).

(** The fresh service after [ping] and [pong] came in and the document
    element was created: ready, with both still in the queue. *)
Definition flipped_two : @State env0 :=
  @DidCreateDocumentElement env0
    (@send_all env0 [ping _; pong _] (fresh _)).

(** A ready service whose frame has gone away since. *)
Definition orphaned : @State env0 :=
  @set_web_frame env0 None (@DidCreateDocumentElement env0 (fresh _)).

(** A ready service with endpoint 1 bound. *)
Definition bound_to_1 : @State env0 :=
  @DidCreateDocumentElement env0 (@BindTo env0 1 (fresh _)).

(** A receiver bound to endpoint [e], with the disconnect handler. *)
Definition active (e : nat) : @AssociatedReceiver env0 :=
  {| bound_endpoint := Some e : option (@PendingReceiver env0);
     disconnect_handler := Some OnConnectionErrorHandler |}.

(** A post message with two ports. *)
Definition hello : @TransferableMessage env0 :=
  {| cloneable := "hello" : @CloneableMessage env0;
     ports := [4; 9] : list (@MessagePortDescriptor env0) |}.

(** What happens to a service after its first readiness transition: the
    drain, a live message, a new binding, the loss of its remote end. *)
Definition afterwards : list (@Call env0) :=
  [CallProcessPendingMessages;
   @CallMessage env0 true "pong" "y" 7%Z;
   @CallBindTo env0 3;
   CallRemoteEndLost].

(** The calls [ping] and [pong] are delivered with by [Message]. *)
Definition ping_call (moved : string -> string) (payload : string) :
  @FunctionCall (env moved) :=
  @onMessage_call (env moved) tt "ipcNative" false "ping" []
    (V8String payload) 5%Z.

Definition pong_call (moved : string -> string) (payload : string) :
  @FunctionCall (env moved) :=
  @onMessage_call (env moved) tt "ipcNative" true "pong" []
    (V8String payload) 7%Z.

End Sample.

(** ** Notions for the invariants of the service *)

Section Notions.

Context {env : Collaborators}.

(** The transport calls [BindTo] for each receiver of [rs], in order. *)
Definition bind_all (rs : list PendingReceiver) (s : State) : State :=
  fold_left (fun st r => BindTo r st) rs s.

(** The endpoint an optional slot holds, as a list. *)
Definition held_in (slot : option PendingReceiver) : list PendingReceiver :=
  match slot with
  | Some e => [e]
  | None => []
  end.

(** The endpoints the service holds: the pending one, the bound one. *)
Definition held_endpoints (s : State) : list PendingReceiver :=
  held_in (pending_receiver_ s) ++ held_in (bound_endpoint (receiver_ s)).

(** The endpoints a log reports closed, oldest first. *)
Definition closed_endpoints (log : list MojoEvent) : list PendingReceiver :=
  flat_map (fun ev => match ev with
                      | EndpointClosed e => [e]
                      | EndpointBound _ => []
                      end) log.

(** The endpoints a log reports bound, oldest first. *)
Definition bound_endpoints (log : list MojoEvent) : list PendingReceiver :=
  flat_map (fun ev => match ev with
                      | EndpointClosed _ => []
                      | EndpointBound e => [e]
                      end) log.

(** The endpoints handed to the service by a run of calls. *)
Definition received_endpoints (cs : list Call) : list PendingReceiver :=
  flat_map (fun c => match c with
                     | CallBindTo r => [r]
                     | _ => []
                     end) cs.

(** Before the document element exists nothing is bound; after it the
    pending slot is empty. *)
Definition exclusive_slots (s : State) : Prop :=
  (document_created_ s = false -> receiver_ s = unbound_receiver) /\
  (document_created_ s = true -> pending_receiver_ s = None).

(** A receiver is unbound without a handler, or bound with
    [OnConnectionError] as its disconnect handler. *)
Definition wired (r : AssociatedReceiver) : Prop :=
  r = unbound_receiver \/
  exists e : PendingReceiver,
    r = {| bound_endpoint := Some e;
           disconnect_handler := Some OnConnectionErrorHandler |}.

(** A call of [onMessage] with the five arguments of [EmitIPCEvent]. *)
Definition is_onMessage_call (c : FunctionCall) : Prop :=
  call_name c = "onMessage" /\
  exists (i : bool) (ch : string) (ps : list (V8Value V8Object))
         (args : V8Value V8Object) (sid : Z),
    call_argv c = [V8Boolean i; V8String ch; V8Array ps; args; V8Int32 sid].

(** The calls that can reach the destination: [Message],
    [ReceivePostMessage] and the drain. *)
Definition may_call_destination (c : Call) : bool :=
  match c with
  | CallMessage _ _ _ _ => true
  | CallReceivePostMessage _ _ => true
  | CallProcessPendingMessages => true
  | _ => false
  end.

End Notions.

(** ** A second instance: no [ipcNative] in the context *)
Module Bare.

Definition env : Collaborators :=
  {| CloneableMessage := string;
     moved_from := fun a => a;
     MessagePortDescriptor := nat;
     PendingReceiver := nat;
     WebLocalFrame := unit;
     V8Context := unit;
     V8Object := string;
     GetContext := fun _ => tt;
     GetIpcObject := fun _ => None;
     ConvertToV8_CloneableMessage := fun a => V8String a;
     DeserializeV8Value := fun a => V8String a;
     EntangleAndInjectMessagePortChannel :=
       fun _ p => V8Int32 (Z.of_nat p) |}.

(** A message and a post message. *)
Definition note : @PendingElectronApiServiceMessage env :=
  {| internal := false;
     channel := "note";
     arguments := "n" : @CloneableMessage env;
     sender_id := 1%Z |}.

Definition letter : @TransferableMessage env :=
  {| cloneable := "l" : @CloneableMessage env;
     ports := [2] : list (@MessagePortDescriptor env) |}.

(** A ready service on a live frame holding [note] in its queue. *)
Definition holding_note : @State env :=
  @DidCreateDocumentElement env
    (@send env note (@initial env (Some tt))).

End Bare.

(** ** Runs of calls on the first instance *)
Module Tour.

(** Two bind requests, readiness, a third request, the loss of its
    remote end, a fourth request. *)
Definition binds : list (@Call Sample.env0) :=
  [@CallBindTo Sample.env0 1;
   @CallBindTo Sample.env0 2;
   CallDidCreateDocumentElement;
   @CallBindTo Sample.env0 3;
   CallRemoteEndLost;
   @CallBindTo Sample.env0 4].

(** A message, two bind requests and a post message before readiness. *)
Definition early : list (@Call Sample.env0) :=
  [@CallMessage Sample.env0 false "ping" "x" 5%Z;
   @CallBindTo Sample.env0 1;
   @CallBindTo Sample.env0 2;
   @CallReceivePostMessage Sample.env0 "greeting" Sample.hello;
   CallOnConnectionError].

(** Binding, readiness and a disconnect: no message at all. *)
Definition quiet : list (@Call Sample.env0) :=
  [@CallBindTo Sample.env0 1;
   CallDidCreateDocumentElement;
   CallRemoteEndLost;
   CallOnConnectionError].

(** A ready service with an empty queue. *)
Definition opened : @State Sample.env0 :=
  @DidCreateDocumentElement Sample.env0 (Sample.fresh _).

End Tour.

(** * Properties *)

Section Facts.

Context {env : Collaborators}.

Local Abbreviation Msg := PendingElectronApiServiceMessage.

(** Runs the methods on an opened state record; call by value, so that
    the nested record updates are each computed once. *)
Ltac unfold_methods :=
  cbv beta iota zeta delta
    [send Message ReceivePostMessage EmitIPCEvent InvokeIpcCallback
     BindTo DidCreateDocumentElement OnConnectionError remote_end_lost
     receiver_set_disconnect_handler receiver_Bind receiver_reset
     assign_pending_receiver_ is_bound unbound_receiver record_call
     record_mojo set_receiver_ set_pending_receiver_ set_pending_messages_
     set_document_created_ set_web_frame
     document_created_ pending_messages_ receiver_ pending_receiver_
     web_frame js_calls mojo_log bound_endpoint disconnect_handler
     negb fst snd] in *.

(** Splits on the [ipcNative] lookup of the goal. *)
Ltac case_delivery :=
  repeat match goal with
    | |- context [match GetIpcObject ?c with _ => _ end] =>
        destruct (GetIpcObject c) eqn:?
    end.

(** Opens the state record, with and without a frame, and computes. *)
Ltac open_state s :=
  destruct s as [? ? ? ? [?|] ? ?]; unfold_methods; subst;
  unfold_methods; case_delivery; unfold_methods.

(** ** What [Message] does in each state of the gate *)

Lemma Message_ready (i : bool) (c : string) (a : CloneableMessage) (sid : Z)
  (s : State) :
  document_created_ s = true ->
  Message i c a sid s =
  match web_frame s with
  | None => s
  | Some frame =>
      EmitIPCEvent (GetContext frame) i c []
        (ConvertToV8_CloneableMessage a) sid s
  end.
Proof.
  intros Hready. unfold Message. rewrite Hready. reflexivity.
Qed.

Lemma Message_not_ready (i : bool) (c : string) (a : CloneableMessage)
  (sid : Z) (s : State) :
  document_created_ s = false ->
  Message i c a sid s =
  let s1 :=
    set_pending_messages_
      (pending_messages_ s ++
       [{| internal := i; channel := c; arguments := a; sender_id := sid |}])
      s in
  match web_frame s with
  | None => s1
  | Some frame =>
      EmitIPCEvent (GetContext frame) i c []
        (ConvertToV8_CloneableMessage (moved_from a)) sid s1
  end.
Proof.
  intros Hgate. unfold Message. rewrite Hgate. reflexivity.
Qed.

Lemma EmitIPCEvent_registered (context : V8Context) (o : V8Object) (i : bool)
  (c : string) (ps : list (V8Value V8Object)) (args : V8Value V8Object)
  (sid : Z) (s : State) :
  GetIpcObject context = Some o ->
  EmitIPCEvent context i c ps args sid s =
  record_call (onMessage_call context o i c ps args sid) s.
Proof.
  intros Hipc. unfold EmitIPCEvent, InvokeIpcCallback. rewrite Hipc.
  reflexivity.
Qed.

Lemma EmitIPCEvent_unregistered (context : V8Context) (i : bool) (c : string)
  (ps : list (V8Value V8Object)) (args : V8Value V8Object) (sid : Z)
  (s : State) :
  GetIpcObject context = None ->
  EmitIPCEvent context i c ps args sid s = s.
Proof.
  intros Hipc. unfold EmitIPCEvent, InvokeIpcCallback. rewrite Hipc.
  reflexivity.
Qed.

(** [Message] never touches the flag, the frame or the receivers. *)
Lemma Message_frame (i : bool) (c : string) (a : CloneableMessage) (sid : Z)
  (s : State) :
  document_created_ (Message i c a sid s) = document_created_ s /\
  web_frame (Message i c a sid s) = web_frame s /\
  receiver_ (Message i c a sid s) = receiver_ s /\
  pending_receiver_ (Message i c a sid s) = pending_receiver_ s /\
  mojo_log (Message i c a sid s) = mojo_log s.
Proof.
  destruct (document_created_ s) eqn:Hgate; open_state s;
    repeat split; reflexivity.
Qed.

Lemma Message_ready_queue (i : bool) (c : string) (a : CloneableMessage)
  (sid : Z) (s : State) :
  document_created_ s = true ->
  pending_messages_ (Message i c a sid s) = pending_messages_ s.
Proof.
  intros Hready. open_state s; reflexivity.
Qed.

(** In the ready state [Message] and a write to the queue commute. *)
Lemma Message_ready_set_pending (q : list Msg) (i : bool) (c : string)
  (a : CloneableMessage) (sid : Z) (s : State) :
  document_created_ s = true ->
  set_pending_messages_ q (Message i c a sid s) =
  Message i c a sid (set_pending_messages_ q s).
Proof.
  intros Hready. open_state s; reflexivity.
Qed.

Lemma set_pending_messages_same (s : State) :
  set_pending_messages_ (pending_messages_ s) s = s.
Proof. destruct s; reflexivity. Qed.

(** ** The drain loop *)

Lemma send_all_cons (m : Msg) (ms : list Msg) (s : State) :
  send_all (m :: ms) s = send_all ms (send m s).
Proof. reflexivity. Qed.

Lemma send_all_ready (ms : list Msg) (s : State) :
  document_created_ s = true ->
  document_created_ (send_all ms s) = true /\
  pending_messages_ (send_all ms s) = pending_messages_ s /\
  web_frame (send_all ms s) = web_frame s.
Proof.
  revert s. induction ms as [|m ms IH]; intros s Hready.
  - cbn. auto.
  - rewrite send_all_cons.
    destruct (Message_frame (internal m) (channel m) (arguments m)
                (sender_id m) s) as (Hd & Hf & _).
    destruct (IH (send m s)) as (IH1 & IH2 & IH3).
    + unfold send. rewrite Hd. exact Hready.
    + repeat split; [exact IH1| |].
      * rewrite IH2. unfold send. apply Message_ready_queue. exact Hready.
      * rewrite IH3. unfold send. exact Hf.
Qed.

(** With the gate open the loop ends after one iteration for each queued
    message, having handed each to [Message], oldest first. *)
Lemma ProcessPendingMessages_loop_ready (fuel : nat) (s : State) :
  document_created_ s = true ->
  List.length (pending_messages_ s) <= fuel ->
  ProcessPendingMessages_loop fuel s =
  Some (send_all (pending_messages_ s) (set_pending_messages_ [] s)).
Proof.
  remember (pending_messages_ s) as q eqn:Hq.
  revert fuel s Hq. induction q as [|m rest IH]; intros fuel s Hq Hready Hlen.
  - destruct fuel; cbn; rewrite <- Hq; cbn; rewrite Hq;
      rewrite set_pending_messages_same; reflexivity.
  - destruct fuel as [|fuel]; [cbn in Hlen; lia|].
    cbn [ProcessPendingMessages_loop]. rewrite <- Hq.
    set (s1 := Message (internal m) (channel m) (arguments m) (sender_id m)
                 (set_pending_messages_ rest s)).
    assert (Hq1 : rest = pending_messages_ s1).
    { unfold s1. rewrite Message_ready_queue by exact Hready. reflexivity. }
    assert (Hready1 : document_created_ s1 = true).
    { unfold s1.
      destruct (Message_frame (internal m) (channel m) (arguments m)
                  (sender_id m) (set_pending_messages_ rest s)) as (Hd & _).
      rewrite Hd. exact Hready. }
    rewrite (IH fuel s1 Hq1 Hready1) by (cbn in Hlen; lia).
    rewrite send_all_cons. f_equal. f_equal.
    unfold s1, send.
    rewrite Message_ready_set_pending by exact Hready.
    reflexivity.
Qed.

(** With the gate shut every iteration puts back what it took: the loop
    does not end, whatever the fuel. *)
Lemma ProcessPendingMessages_loop_not_ready (fuel : nat) (s : State) :
  document_created_ s = false ->
  pending_messages_ s <> [] ->
  ProcessPendingMessages_loop fuel s = None.
Proof.
  revert s. induction fuel as [|fuel IH]; intros s Hgate Hq.
  - cbn. destruct (pending_messages_ s); [congruence|reflexivity].
  - cbn. destruct (pending_messages_ s) as [|m rest] eqn:E; [congruence|].
    apply IH.
    + destruct (Message_frame (internal m) (channel m) (arguments m)
                  (sender_id m) (set_pending_messages_ rest s)) as (Hd & _).
      rewrite Hd. exact Hgate.
    + clear IH. open_state s; destruct rest; discriminate.
Qed.

Lemma ProcessPendingMessages_ready (s : State) :
  document_created_ s = true ->
  ProcessPendingMessages s =
  Some (send_all (pending_messages_ s) (set_pending_messages_ [] s)).
Proof.
  intros Hready. unfold ProcessPendingMessages.
  apply ProcessPendingMessages_loop_ready; [exact Hready|lia].
Qed.

(** ** What the destination sees of a run of messages *)

Lemma send_ready_calls (f : WebLocalFrame) (o : V8Object) (m : Msg)
  (s : State) :
  document_created_ s = true ->
  web_frame s = Some f ->
  GetIpcObject (GetContext f) = Some o ->
  js_calls (send m s) = js_calls s ++ [delivery_of f o m].
Proof.
  intros Hready Hf Hipc. destruct m as [i c a sid].
  destruct s as [dc q r pr wf calls ml]. cbn in Hready, Hf. subst.
  unfold send, Message, EmitIPCEvent, InvokeIpcCallback. cbn.
  rewrite Hipc. reflexivity.
Qed.

Lemma send_all_ready_calls (f : WebLocalFrame) (o : V8Object)
  (ms : list Msg) (s : State) :
  document_created_ s = true ->
  web_frame s = Some f ->
  GetIpcObject (GetContext f) = Some o ->
  js_calls (send_all ms s) = js_calls s ++ map (delivery_of f o) ms.
Proof.
  intros Hready Hf Hipc. revert s Hready Hf.
  induction ms as [|m ms IH]; intros s Hready Hf.
  - cbn. rewrite app_nil_r. reflexivity.
  - rewrite send_all_cons.
    destruct (Message_frame (internal m) (channel m) (arguments m)
                (sender_id m) s) as (Hd & Hw & _).
    rewrite IH.
    + rewrite (send_ready_calls m s Hready Hf Hipc).
      rewrite <- app_assoc. reflexivity.
    + unfold send. rewrite Hd. exact Hready.
    + unfold send. rewrite Hw. exact Hf.
Qed.

Lemma send_not_ready (f : WebLocalFrame) (o : V8Object) (m : Msg)
  (s : State) :
  document_created_ s = false ->
  web_frame s = Some f ->
  GetIpcObject (GetContext f) = Some o ->
  pending_messages_ (send m s) = pending_messages_ s ++ [m] /\
  js_calls (send m s) =
  js_calls s ++ [delivery_of f o (with_moved_arguments m)].
Proof.
  intros Hgate Hf Hipc. destruct m as [i c a sid].
  destruct s as [dc q r pr wf calls ml]. cbn in Hgate, Hf. subst.
  unfold send, Message, EmitIPCEvent, InvokeIpcCallback. cbn.
  rewrite Hipc. split; reflexivity.
Qed.

Lemma send_all_not_ready (f : WebLocalFrame) (o : V8Object)
  (ms : list Msg) (s : State) :
  document_created_ s = false ->
  web_frame s = Some f ->
  GetIpcObject (GetContext f) = Some o ->
  document_created_ (send_all ms s) = false /\
  web_frame (send_all ms s) = Some f /\
  pending_messages_ (send_all ms s) = pending_messages_ s ++ ms /\
  js_calls (send_all ms s) =
  js_calls s ++ map (fun m => delivery_of f o (with_moved_arguments m)) ms.
Proof.
  intros Hgate Hf Hipc. revert s Hgate Hf.
  induction ms as [|m ms IH]; intros s Hgate Hf.
  - cbn. rewrite !app_nil_r. auto.
  - rewrite send_all_cons.
    destruct (Message_frame (internal m) (channel m) (arguments m)
                (sender_id m) s) as (Hd & Hw & _).
    destruct (send_not_ready m s Hgate Hf Hipc) as (Hq & Hc).
    destruct (IH (send m s)) as (IH1 & IH2 & IH3 & IH4).
    + unfold send. rewrite Hd. exact Hgate.
    + unfold send. rewrite Hw. exact Hf.
    + repeat split; [exact IH1|exact IH2| |].
      * rewrite IH3, Hq, <- app_assoc. reflexivity.
      * rewrite IH4, Hc, <- app_assoc. reflexivity.
Qed.

(** [DidCreateDocumentElement] opens the gate and touches neither the
    queue, nor the frame, nor the destination. *)
Lemma DidCreateDocumentElement_frame (s : State) :
  document_created_ (DidCreateDocumentElement s) = true /\
  pending_messages_ (DidCreateDocumentElement s) = pending_messages_ s /\
  web_frame (DidCreateDocumentElement s) = web_frame s /\
  js_calls (DidCreateDocumentElement s) = js_calls s /\
  pending_receiver_ (DidCreateDocumentElement s) = None.
Proof.
  destruct s as [dc q [[b|] h] [p|] wf calls ml]; unfold_methods;
    repeat split; reflexivity.
Qed.

(** The drain with the gate open, with what it leaves alone. *)
Lemma ProcessPendingMessages_drains_in_order_aux (s : State) :
  document_created_ s = true ->
  exists s',
    ProcessPendingMessages s = Some s' /\
    pending_messages_ s' = [] /\
    s' = send_all (pending_messages_ s) (set_pending_messages_ [] s) /\
    document_created_ s' = true /\
    web_frame s' = web_frame s /\
    forall (f : WebLocalFrame) (o : V8Object),
      web_frame s = Some f ->
      GetIpcObject (GetContext f) = Some o ->
      js_calls s' = js_calls s ++ map (delivery_of f o) (pending_messages_ s).
Proof.
  intros Hready.
  rewrite (ProcessPendingMessages_ready s Hready).
  eexists. split; [reflexivity|].
  assert (Hready' : document_created_ (set_pending_messages_ [] s) = true)
    by exact Hready.
  destruct (send_all_ready (pending_messages_ s) _ Hready')
    as (Hd & Hq & Hw).
  split; [exact Hq|]. split; [reflexivity|].
  split; [exact Hd|]. split; [exact Hw|].
  intros f o Hf Hipc.
  rewrite (send_all_ready_calls (pending_messages_ s)
             (set_pending_messages_ [] s) Hready' Hf Hipc).
  reflexivity.
Qed.

(** ** The gate in [Message] *)

(** C1, as the code behaves: a message that arrives through [Message]
    while [document_created_] is false is appended to the pending queue,
    and the call does not return there: with a frame and [ipcNative] in
    place it goes on to invoke [onMessage] at once, with the payload in its
    moved-from state.  The message is delivered before the readiness
    transition. *)
Theorem Message_not_ready_enqueues_and_delivers
  (i : bool) (c : string) (a : CloneableMessage) (sid : Z) (s : State)
  (f : WebLocalFrame) (o : V8Object) :
  document_created_ s = false ->
  web_frame s = Some f ->
  GetIpcObject (GetContext f) = Some o ->
  pending_messages_ (Message i c a sid s) =
    pending_messages_ s ++
    [{| internal := i; channel := c; arguments := a; sender_id := sid |}] /\
  js_calls (Message i c a sid s) =
    js_calls s ++
    [onMessage_call (GetContext f) o i c []
       (ConvertToV8_CloneableMessage (moved_from a)) sid].
Proof.
  intros Hgate Hf Hipc.
  exact (send_not_ready
           {| internal := i; channel := c; arguments := a; sender_id := sid |}
           s Hgate Hf Hipc).
Qed.

(** C2, as the code behaves: messages [early] sent while not ready, then
    the flip and the drain, then messages [live] sent while ready.  The
    destination sees every early message twice: once when it arrives, with
    a moved-from payload, and once more from the drain; only then the live
    ones. *)
Theorem early_messages_observed_twice
  (early live : list Msg) (s : State) (f : WebLocalFrame) (o : V8Object) :
  document_created_ s = false ->
  pending_messages_ s = [] ->
  web_frame s = Some f ->
  GetIpcObject (GetContext f) = Some o ->
  exists s3,
    ProcessPendingMessages (DidCreateDocumentElement (send_all early s)) =
      Some s3 /\
    pending_messages_ (send_all live s3) = [] /\
    js_calls (send_all live s3) =
      js_calls s ++
      map (fun m => delivery_of f o (with_moved_arguments m)) early ++
      map (delivery_of f o) early ++
      map (delivery_of f o) live.
Proof.
  intros Hgate Hq Hf Hipc.
  destruct (send_all_not_ready early s Hgate Hf Hipc)
    as (_ & Hf1 & Hq1 & Hc1).
  set (s1 := send_all early s) in *.
  destruct (DidCreateDocumentElement_frame s1) as (Hd2 & Hq2 & Hf2 & Hc2 & _).
  set (s2 := DidCreateDocumentElement s1) in *.
  rewrite (ProcessPendingMessages_ready s2 Hd2).
  eexists. split; [reflexivity|].
  set (s2' := set_pending_messages_ [] s2).
  assert (Hd2' : document_created_ s2' = true) by exact Hd2.
  assert (Hf2' : web_frame s2' = Some f)
    by (unfold s2'; cbn; rewrite Hf2; exact Hf1).
  destruct (send_all_ready (pending_messages_ s2) s2' Hd2')
    as (Hd3 & Hq3 & Hf3).
  set (s3 := send_all (pending_messages_ s2) s2') in *.
  assert (Hf3' : web_frame s3 = Some f) by (rewrite Hf3; exact Hf2').
  destruct (send_all_ready live s3 Hd3) as (_ & Hq4 & _).
  split.
  - rewrite Hq4, Hq3. reflexivity.
  - rewrite (send_all_ready_calls live s3 Hd3 Hf3' Hipc).
    unfold s3.
    rewrite (send_all_ready_calls (pending_messages_ s2) s2' Hd2' Hf2' Hipc).
    unfold s2'. cbn [js_calls set_pending_messages_].
    rewrite Hc2, Hq2, Hc1, Hq1, Hq. cbn [app].
    rewrite <- !app_assoc. reflexivity.
Qed.

(** ** The drain *)

(** C4: when the gate is open, [ProcessPendingMessages] comes to an end,
    after one iteration for each queued message and whatever further fuel
    the loop is given; it leaves the queue empty and has handed every
    queued message to [Message] exactly once, oldest first.  With a frame
    and [ipcNative] in place the destination has been called once for each
    message, in enqueue order. *)
Theorem ProcessPendingMessages_drains_in_order (s : State) :
  document_created_ s = true ->
  exists s',
    ProcessPendingMessages s = Some s' /\
    (forall fuel : nat,
       List.length (pending_messages_ s) <= fuel ->
       ProcessPendingMessages_loop fuel s = Some s') /\
    pending_messages_ s' = [] /\
    s' = send_all (pending_messages_ s) (set_pending_messages_ [] s) /\
    forall (f : WebLocalFrame) (o : V8Object),
      web_frame s = Some f ->
      GetIpcObject (GetContext f) = Some o ->
      js_calls s' = js_calls s ++ map (delivery_of f o) (pending_messages_ s).
Proof.
  intros Hready.
  exists (send_all (pending_messages_ s) (set_pending_messages_ [] s)).
  split; [exact (ProcessPendingMessages_ready s Hready)|].
  split; [intros fuel Hfuel;
          exact (@ProcessPendingMessages_loop_ready fuel s Hready Hfuel)|].
  assert (Hready' : document_created_ (set_pending_messages_ [] s) = true)
    by exact Hready.
  destruct (send_all_ready (pending_messages_ s) _ Hready') as (_ & Hq & _).
  split; [exact Hq|]. split; [reflexivity|].
  intros f o Hf Hipc.
  rewrite (send_all_ready_calls (pending_messages_ s)
             (set_pending_messages_ [] s) Hready' Hf Hipc).
  reflexivity.
Qed.

(** C3, amended: the flip in [DidCreateDocumentElement] leaves the queue
    as it is; the drain is [ProcessPendingMessages].  Run after the flip, it
    comes to an end with the queue empty, and the destination has been
    called for every buffered message, in order, before it is called for any
    message that arrives after the drain. *)
Theorem drain_after_flip_precedes_live
  (live : list Msg) (s : State) (f : WebLocalFrame) (o : V8Object) :
  web_frame s = Some f ->
  GetIpcObject (GetContext f) = Some o ->
  pending_messages_ (DidCreateDocumentElement s) = pending_messages_ s /\
  js_calls (DidCreateDocumentElement s) = js_calls s /\
  exists s2,
    ProcessPendingMessages (DidCreateDocumentElement s) = Some s2 /\
    pending_messages_ s2 = [] /\
    js_calls s2 = js_calls s ++ map (delivery_of f o) (pending_messages_ s) /\
    pending_messages_ (send_all live s2) = [] /\
    js_calls (send_all live s2) =
      js_calls s ++ map (delivery_of f o) (pending_messages_ s) ++
      map (delivery_of f o) live.
Proof.
  intros Hf Hipc.
  destruct (DidCreateDocumentElement_frame s) as (Hd & Hq & Hw & Hc & _).
  split; [exact Hq|]. split; [exact Hc|].
  set (s1 := DidCreateDocumentElement s) in *.
  assert (Hf1 : web_frame s1 = Some f) by (rewrite Hw; exact Hf).
  destruct (ProcessPendingMessages_drains_in_order_aux s1 Hd)
    as (s2 & Hrun & Hq2 & Hs2 & Hd2 & Hw2 & Hcalls).
  exists s2. split; [exact Hrun|]. split; [exact Hq2|].
  specialize (Hcalls f o Hf1 Hipc).
  assert (Hf2 : web_frame s2 = Some f) by (rewrite Hw2; exact Hf1).
  destruct (send_all_ready live s2 Hd2) as (_ & Hq3 & _).
  split; [rewrite Hcalls, Hc, Hq; reflexivity|].
  split; [rewrite Hq3; exact Hq2|].
  rewrite (send_all_ready_calls live s2 Hd2 Hf2 Hipc).
  rewrite Hcalls, Hc, Hq, <- app_assoc. reflexivity.
Qed.

(** ** The channel binding *)

(** C5: two [BindTo] requests before the document element exists.  The
    second takes the pending slot and closes the first; neither touches
    the active receiver.  [DidCreateDocumentElement] then binds the second,
    with the disconnect handler, and empties the slot.  The only endpoint
    that gets bound is the second one. *)
Theorem two_early_binds_promote_the_second
  (r1 r2 : PendingReceiver) (s : State) :
  document_created_ s = false ->
  let s1 := BindTo r1 s in
  let s2 := BindTo r2 s1 in
  let s3 := DidCreateDocumentElement s2 in
  (pending_receiver_ s1 = Some r1 /\ receiver_ s1 = receiver_ s) /\
  (pending_receiver_ s2 = Some r2 /\ receiver_ s2 = receiver_ s /\
   mojo_log s2 = mojo_log s1 ++ [EndpointClosed r1]) /\
  (receiver_ s3 = {| bound_endpoint := Some r2;
                     disconnect_handler := Some OnConnectionErrorHandler |} /\
   pending_receiver_ s3 = None /\
   mojo_log s3 =
     mojo_log s ++ closed_of (pending_receiver_ s) ++ [EndpointClosed r1] ++
     closed_of (bound_endpoint (receiver_ s)) ++ [EndpointBound r2]).
Proof.
  intros Hgate.
  destruct s as [dc q [[b|] h] [p|] wf calls ml]; cbn in Hgate; subst dc;
    unfold_methods; cbn [closed_of app]; rewrite <- ?app_assoc;
    repeat split; reflexivity.
Qed.

(** C6: [BindTo] once the document element exists.  A bound receiver is
    closed first, then the new endpoint is bound and
    [OnConnectionError] installed as its disconnect handler; the pending
    slot is not used.  When the remote end goes away the handler closes the
    endpoint and the receiver is left unbound. *)
Theorem ready_bind_activates_at_once (r : PendingReceiver) (s : State) :
  document_created_ s = true ->
  let s1 := BindTo r s in
  receiver_ s1 = {| bound_endpoint := Some r;
                    disconnect_handler := Some OnConnectionErrorHandler |} /\
  pending_receiver_ s1 = pending_receiver_ s /\
  mojo_log s1 =
    mojo_log s ++ closed_of (bound_endpoint (receiver_ s)) ++
    [EndpointBound r] /\
  receiver_ (remote_end_lost s1) = unbound_receiver /\
  mojo_log (remote_end_lost s1) = mojo_log s1 ++ [EndpointClosed r].
Proof.
  intros Hready.
  destruct s as [dc q [[b|] h] p wf calls ml]; cbn in Hready; subst dc;
    unfold_methods; cbn [closed_of app]; rewrite <- ?app_assoc;
    repeat split; reflexivity.
Qed.

(** ** The missing frame *)

Lemma send_all_no_frame (ms : list Msg) (s : State) :
  document_created_ s = true ->
  web_frame s = None ->
  send_all ms s = s.
Proof.
  intros Hready Hf. induction ms as [|m ms IH]; [reflexivity|].
  rewrite send_all_cons.
  replace (send m s) with s; [exact IH|].
  unfold send. rewrite Message_ready by exact Hready.
  rewrite Hf. reflexivity.
Qed.

(** C9: with a null web frame no call reaches the destination.  [Message]
    in the ready state and [ReceivePostMessage] in any state leave the
    service exactly as it was, so nothing of the message is kept for a
    later attempt; [Message] in the not-ready state does no more than the
    gate's enqueue; and the drain empties the queue without a call. *)
Theorem null_frame_drops_message (s : State) :
  web_frame s = None ->
  (forall (i : bool) (c : string) (a : CloneableMessage) (sid : Z),
     js_calls (Message i c a sid s) = js_calls s /\
     (document_created_ s = true -> Message i c a sid s = s) /\
     (document_created_ s = false ->
      Message i c a sid s =
      set_pending_messages_
        (pending_messages_ s ++
         [{| internal := i; channel := c; arguments := a;
             sender_id := sid |}]) s)) /\
  (forall (c : string) (m : TransferableMessage),
     ReceivePostMessage c m s = s) /\
  (document_created_ s = true ->
   ProcessPendingMessages s = Some (set_pending_messages_ [] s)).
Proof.
  intros Hf. split; [|split].
  - intros i c a sid. split; [|split].
    + unfold Message. destruct (document_created_ s); cbn;
        rewrite Hf; reflexivity.
    + intros Hready. rewrite Message_ready by exact Hready.
      rewrite Hf. reflexivity.
    + intros Hgate. rewrite Message_not_ready by exact Hgate.
      cbn zeta. rewrite Hf. reflexivity.
  - intros c m. unfold ReceivePostMessage. rewrite Hf. reflexivity.
  - intros Hready. rewrite ProcessPendingMessages_ready by exact Hready.
    rewrite send_all_no_frame; [reflexivity|exact Hready|exact Hf].
Qed.

(** ** Post messages *)

(** C10: [ReceivePostMessage] does not look at [document_created_] and
    does not touch the pending queue.  With a frame and [ipcNative] in place
    it calls [onMessage] at once with [internal = false], the channel, the
    ports entangled into the frame's context, the deserialized message
    wrapped in a one-element array, and [sender_id = 0]. *)
Theorem ReceivePostMessage_bypasses_gate
  (c : string) (m : TransferableMessage) (s : State)
  (f : WebLocalFrame) (o : V8Object) :
  web_frame s = Some f ->
  GetIpcObject (GetContext f) = Some o ->
  js_calls (ReceivePostMessage c m s) =
    js_calls s ++
    [onMessage_call (GetContext f) o false c
       (map (EntangleAndInjectMessagePortChannel (GetContext f)) (ports m))
       (V8Array [DeserializeV8Value (cloneable m)]) 0%Z] /\
  pending_messages_ (ReceivePostMessage c m s) = pending_messages_ s /\
  document_created_ (ReceivePostMessage c m s) = document_created_ s /\
  forall b : bool,
    ReceivePostMessage c m (set_document_created_ b s) =
    set_document_created_ b (ReceivePostMessage c m s).
Proof.
  intros Hf Hipc.
  destruct s as [dc q r pr wf calls ml]. cbn in Hf. subst wf.
  unfold ReceivePostMessage, EmitIPCEvent, InvokeIpcCallback.
  cbn [web_frame set_document_created_]. rewrite Hipc.
  repeat split; reflexivity.
Qed.

(** ** The steady state *)

Lemma DidCreateDocumentElement_steady (s : State) :
  steady (DidCreateDocumentElement s).
Proof.
  destruct (DidCreateDocumentElement_frame s) as (Hd & _ & _ & _ & Hp).
  split; assumption.
Qed.

Lemma steady_DidCreateDocumentElement (s : State) :
  steady s -> DidCreateDocumentElement s = s.
Proof.
  intros [Hd Hp]. destruct s as [dc q r pr wf calls ml].
  cbn in Hd, Hp. subst. reflexivity.
Qed.

Lemma send_all_receivers (ms : list Msg) (s : State) :
  document_created_ (send_all ms s) = document_created_ s /\
  pending_receiver_ (send_all ms s) = pending_receiver_ s.
Proof.
  revert s. induction ms as [|m ms IH]; intros s; [split; reflexivity|].
  rewrite send_all_cons. destruct (IH (send m s)) as (IH1 & IH2).
  destruct (Message_frame (internal m) (channel m) (arguments m)
              (sender_id m) s) as (Hd & _ & _ & Hp & _).
  unfold send in *. rewrite IH1, IH2, Hd, Hp. split; reflexivity.
Qed.

Lemma step_steady (c : Call) (s s' : State) :
  steady s -> step c s = Some s' -> steady s'.
Proof.
  intros [Hd Hp] Hstep. destruct c; cbn in Hstep.
  - injection Hstep as <-.
    destruct s as [dc q [[b|] h] pr wf calls ml]; cbn in Hd, Hp; subst;
      split; reflexivity.
  - injection Hstep as <-. apply DidCreateDocumentElement_steady.
  - rewrite ProcessPendingMessages_ready in Hstep by exact Hd.
    injection Hstep as <-.
    destruct (send_all_receivers (pending_messages_ s)
                (set_pending_messages_ [] s)) as (H1 & H2).
    split; [rewrite H1; exact Hd|rewrite H2; exact Hp].
  - injection Hstep as <-.
    destruct s as [dc q [[b|] h] pr wf calls ml]; cbn in Hd, Hp; subst;
      split; reflexivity.
  - injection Hstep as <-.
    destruct s as [dc q [[b|] [[]|]] pr wf calls ml]; cbn in Hd, Hp; subst;
      split; reflexivity.
  - injection Hstep as <-.
    destruct (Message_frame internal' channel' arguments' sender_id' s)
      as (H1 & _ & _ & H2 & _).
    split; [rewrite H1; exact Hd|rewrite H2; exact Hp].
  - injection Hstep as <-.
    assert (H : document_created_ (ReceivePostMessage channel' message s) =
                document_created_ s /\
                pending_receiver_ (ReceivePostMessage channel' message s) =
                pending_receiver_ s)
      by (open_state s; split; reflexivity).
    destruct H as (H1 & H2). split; [rewrite H1; exact Hd|rewrite H2; exact Hp].
Qed.

Lemma run_steady (cs : list Call) (s s' : State) :
  steady s -> run cs s = Some s' -> steady s'.
Proof.
  revert s. induction cs as [|c cs IH]; intros s Hs Hrun; cbn in Hrun.
  - injection Hrun as <-. exact Hs.
  - destruct (step c s) as [s1|] eqn:Hstep; [|discriminate].
    exact (IH s1 (step_steady c Hs Hstep) Hrun).
Qed.

(** Once the gate is open an empty queue stays empty. *)
Lemma step_drained (c : Call) (s s' : State) :
  document_created_ s = true ->
  pending_messages_ s = [] ->
  step c s = Some s' ->
  pending_messages_ s' = [].
Proof.
  intros Hd Hq Hstep. destruct c; cbn in Hstep.
  - injection Hstep as <-.
    destruct s as [dc q [[b|] h] pr wf calls ml]; cbn in Hd, Hq; subst;
      reflexivity.
  - injection Hstep as <-.
    destruct (DidCreateDocumentElement_frame s) as (_ & H & _).
    rewrite H. exact Hq.
  - unfold ProcessPendingMessages in Hstep. rewrite Hq in Hstep.
    cbn in Hstep. rewrite Hq in Hstep. injection Hstep as <-. exact Hq.
  - injection Hstep as <-.
    destruct s as [dc q [[b|] h] pr wf calls ml]; cbn in Hd, Hq; subst;
      reflexivity.
  - injection Hstep as <-.
    destruct s as [dc q [[b|] [[]|]] pr wf calls ml]; cbn in Hd, Hq; subst;
      reflexivity.
  - injection Hstep as <-.
    rewrite Message_ready_queue by exact Hd. exact Hq.
  - injection Hstep as <-. open_state s; reflexivity.
Qed.

Lemma run_drained (cs : list Call) (s s' : State) :
  steady s ->
  pending_messages_ s = [] ->
  run cs s = Some s' ->
  pending_messages_ s' = [].
Proof.
  revert s. induction cs as [|c cs IH]; intros s Hs Hq Hrun; cbn in Hrun.
  - injection Hrun as <-. exact Hq.
  - destruct (step c s) as [s1|] eqn:Hstep; [|discriminate].
    apply (IH s1); [exact (step_steady c Hs Hstep)| |exact Hrun].
    destruct Hs as [Hd _]. exact (step_drained c s Hd Hq Hstep).
Qed.

Lemma run_drains (cs : list Call) (s s' : State) :
  steady s ->
  In CallProcessPendingMessages cs ->
  run cs s = Some s' ->
  pending_messages_ s' = [].
Proof.
  revert s. induction cs as [|c cs IH]; intros s Hs Hin Hrun; [destruct Hin|].
  cbn in Hrun. destruct (step c s) as [s1|] eqn:Hstep; [|discriminate].
  pose proof (step_steady c Hs Hstep) as Hs1.
  destruct Hin as [->|Hin].
  - apply (run_drained cs Hs1); [|exact Hrun].
    cbn in Hstep. destruct Hs as [Hd _].
    destruct (ProcessPendingMessages_drains_in_order_aux s Hd)
      as (s2 & Hrun2 & Hq2 & _).
    rewrite Hrun2 in Hstep. injection Hstep as <-. exact Hq2.
  - exact (IH s1 Hs1 Hin Hrun).
Qed.

(** C8: after a first [DidCreateDocumentElement] and any calls that
    follow it, a second [DidCreateDocumentElement] changes nothing: no
    binding is promoted, the queue and the destination are left alone.  If
    the drain was among those calls the queue is empty, and a second drain
    changes nothing either. *)
Theorem second_readiness_transition_is_noop
  (cs : list Call) (s s' : State) :
  run (CallDidCreateDocumentElement :: cs) s = Some s' ->
  DidCreateDocumentElement s' = s' /\
  (In CallProcessPendingMessages cs ->
   pending_messages_ s' = [] /\ ProcessPendingMessages s' = Some s').
Proof.
  cbn [run step]. intros Hrun.
  pose proof (DidCreateDocumentElement_steady s) as Hs.
  pose proof (run_steady cs Hs Hrun) as Hs'.
  split; [exact (steady_DidCreateDocumentElement Hs')|].
  intros Hin. pose proof (run_drains cs Hs Hin Hrun) as Hq.
  split; [exact Hq|].
  unfold ProcessPendingMessages. rewrite Hq. cbn. rewrite Hq. reflexivity.
Qed.

(** * Further properties of the service *)

(** ** When the drain comes to an end *)

(** The loop leaves the gate, the frame, the receivers and the mojo log
    as they are. *)
Lemma ProcessPendingMessages_loop_frame (fuel : nat) (s s' : State) :
  ProcessPendingMessages_loop fuel s = Some s' ->
  document_created_ s' = document_created_ s /\
  web_frame s' = web_frame s /\
  receiver_ s' = receiver_ s /\
  pending_receiver_ s' = pending_receiver_ s /\
  mojo_log s' = mojo_log s.
Proof.
  revert s. induction fuel as [|fuel IH]; intros s Hloop; cbn in Hloop.
  - destruct (pending_messages_ s); [|discriminate].
    injection Hloop as <-. repeat split; reflexivity.
  - destruct (pending_messages_ s) as [|m rest].
    + injection Hloop as <-. repeat split; reflexivity.
    + destruct (IH _ Hloop) as (H1 & H2 & H3 & H4 & H5).
      destruct (Message_frame (internal m) (channel m) (arguments m)
                  (sender_id m) (set_pending_messages_ rest s))
        as (G1 & G2 & G3 & G4 & G5).
      rewrite H1, H2, H3, H4, H5, G1, G2, G3, G4, G5.
      repeat split; reflexivity.
Qed.

(** X1: the drain loop comes to an end, for some amount of fuel, exactly when
    there is nothing to drain or the gate is open: called on a non-empty
    queue before the document element exists it runs for ever. *)
Theorem drain_terminates_iff (s : State) :
  (exists (fuel : nat) (s' : State),
     ProcessPendingMessages_loop fuel s = Some s') <->
  (pending_messages_ s = [] \/ document_created_ s = true).
Proof.
  split.
  - intros (fuel & s' & Hloop).
    destruct (pending_messages_ s) as [|m rest] eqn:Hq; [left; reflexivity|].
    destruct (document_created_ s) eqn:Hgate; [right; reflexivity|].
    rewrite ProcessPendingMessages_loop_not_ready in Hloop;
      [discriminate|exact Hgate|rewrite Hq; discriminate].
  - intros [Hq|Hready].
    + exists 0, s. cbn. rewrite Hq. reflexivity.
    + eexists _, _.
      apply (@ProcessPendingMessages_loop_ready
               (List.length (pending_messages_ s)) s Hready).
      lia.
Qed.

(** ** The gate *)

Lemma step_gate (c : Call) (s s' : State) :
  step c s = Some s' ->
  document_created_ s' =
  match c with
  | CallDidCreateDocumentElement => true
  | _ => document_created_ s
  end.
Proof.
  intros Hstep. destruct c; cbn in Hstep.
  - injection Hstep as <-.
    destruct s as [[|] q [[b|] h] [p|] wf calls ml]; reflexivity.
  - injection Hstep as <-.
    destruct (DidCreateDocumentElement_frame s) as (H & _). exact H.
  - destruct (ProcessPendingMessages_loop_frame _ _ Hstep) as (H & _).
    exact H.
  - injection Hstep as <-.
    destruct s as [dc q [[b|] h] pr wf calls ml]; reflexivity.
  - injection Hstep as <-.
    destruct s as [dc q [[b|] [[]|]] pr wf calls ml]; reflexivity.
  - injection Hstep as <-.
    destruct (Message_frame internal' channel' arguments' sender_id' s)
      as (H & _).
    exact H.
  - injection Hstep as <-. open_state s; reflexivity.
Qed.

(** X2: the gate is opened by [DidCreateDocumentElement] and by nothing
    else, and no call closes it again. *)
Theorem gate_opens_once_and_for_all (cs : list Call) (s s' : State) :
  run cs s = Some s' ->
  (document_created_ s' = true <->
   document_created_ s = true \/ In CallDidCreateDocumentElement cs).
Proof.
  revert s. induction cs as [|c cs IH]; intros s Hrun; cbn in Hrun.
  - injection Hrun as <-. cbn. tauto.
  - destruct (step c s) as [s1|] eqn:Hstep; [|discriminate].
    rewrite (IH s1 Hrun). rewrite (step_gate c s Hstep). cbn [In].
    destruct c; try (split; [intros [H|H]; [left; exact H|right; right; exact H]
                            |intros [H|[H|H]];
                             [left; exact H|discriminate H|right; exact H]]).
    split; [intros _; right; left; reflexivity|intros _; left; reflexivity].
Qed.

(** ** Buffering and live delivery *)

(** X3: while the gate is shut the queue grows by exactly the messages that
    arrive, in arrival order, whether or not there is a frame or an
    [ipcNative] to deliver to. *)
Theorem buffering_keeps_arrival_order (ms : list Msg) (s : State) :
  document_created_ s = false ->
  document_created_ (send_all ms s) = false /\
  pending_messages_ (send_all ms s) = pending_messages_ s ++ ms.
Proof.
  revert s. induction ms as [|m ms IH]; intros s Hgate.
  - cbn. rewrite app_nil_r. split; [exact Hgate|reflexivity].
  - rewrite send_all_cons.
    assert (Hq : pending_messages_ (send m s) = pending_messages_ s ++ [m]).
    { destruct m as [i c a sid]. clear IH. open_state s; reflexivity. }
    destruct (Message_frame (internal m) (channel m) (arguments m)
                (sender_id m) s) as (Hd & _).
    destruct (IH (send m s)) as (IH1 & IH2).
    + unfold send. rewrite Hd. exact Hgate.
    + split; [exact IH1|].
      rewrite IH2, Hq, <- app_assoc. reflexivity.
Qed.

(** X4: once the gate is open and the queue empty, messages are never
    queued: after any number of them the queue is still empty, and with a
    frame and [ipcNative] in place the destination has been called once for
    each, in order. *)
Theorem live_messages_never_queue (ms : list Msg) (s : State) :
  document_created_ s = true ->
  pending_messages_ s = [] ->
  (forall n : nat, pending_messages_ (send_all (firstn n ms) s) = []) /\
  forall (f : WebLocalFrame) (o : V8Object),
    web_frame s = Some f ->
    GetIpcObject (GetContext f) = Some o ->
    js_calls (send_all ms s) = js_calls s ++ map (delivery_of f o) ms.
Proof.
  intros Hready Hq. split.
  - intros n. destruct (send_all_ready (firstn n ms) s Hready) as (_ & H & _).
    rewrite H. exact Hq.
  - intros f o Hf Hipc. exact (send_all_ready_calls ms s Hready Hf Hipc).
Qed.

(** ** Disconnects and deliveries *)

(** X5: losing the binding and handling a message do not interfere: in
    either order they lead to the same state, so a message is delivered
    the same with or without an active binding. *)
Theorem disconnect_commutes_with_delivery (s : State) :
  (forall (i : bool) (c : string) (a : CloneableMessage) (sid : Z),
     OnConnectionError (Message i c a sid s) =
     Message i c a sid (OnConnectionError s) /\
     remote_end_lost (Message i c a sid s) =
     Message i c a sid (remote_end_lost s)) /\
  (forall (c : string) (m : TransferableMessage),
     OnConnectionError (ReceivePostMessage c m s) =
     ReceivePostMessage c m (OnConnectionError s) /\
     remote_end_lost (ReceivePostMessage c m s) =
     ReceivePostMessage c m (remote_end_lost s)).
Proof.
  split; intros.
  - destruct s as [[|] q [[b|] [[]|]] pr [f|] calls ml]; unfold_methods;
      case_delivery; split; reflexivity.
  - destruct s as [dc q [[b|] [[]|]] pr [f|] calls ml]; unfold_methods;
      case_delivery; split; reflexivity.
Qed.

(** ** The missing [ipcNative] *)

(** X6: when the frame's context has no [ipcNative] object nothing reaches
    the destination and nothing is reported: a ready [Message] and a
    [ReceivePostMessage] leave the service as it was, and the drain empties
    the queue without a single call. *)
Theorem unregistered_ipcNative_drops_message (s : State) (f : WebLocalFrame) :
  web_frame s = Some f ->
  GetIpcObject (GetContext f) = None ->
  (forall (i : bool) (c : string) (a : CloneableMessage) (sid : Z),
     js_calls (Message i c a sid s) = js_calls s /\
     (document_created_ s = true -> Message i c a sid s = s)) /\
  (forall (c : string) (m : TransferableMessage),
     ReceivePostMessage c m s = s) /\
  (document_created_ s = true ->
   ProcessPendingMessages s = Some (set_pending_messages_ [] s)).
Proof.
  intros Hf Hipc.
  assert (Hmsg : forall i c a sid,
             document_created_ s = true -> Message i c a sid s = s).
  { intros i c a sid Hready. rewrite Message_ready by exact Hready.
    rewrite Hf. apply EmitIPCEvent_unregistered. exact Hipc. }
  split; [|split].
  - intros i c a sid. split; [|apply Hmsg].
    destruct (document_created_ s) eqn:Hgate.
    + rewrite Hmsg by reflexivity. reflexivity.
    + rewrite Message_not_ready by exact Hgate. cbn zeta. rewrite Hf.
      rewrite EmitIPCEvent_unregistered by exact Hipc. reflexivity.
  - intros c m. unfold ReceivePostMessage. rewrite Hf.
    apply EmitIPCEvent_unregistered. exact Hipc.
  - intros Hready. rewrite ProcessPendingMessages_ready by exact Hready.
    f_equal.
    assert (Hall : forall ms s0,
               document_created_ s0 = true -> web_frame s0 = Some f ->
               send_all ms s0 = s0).
    { induction ms as [|m ms IH]; intros s0 Hd0 Hf0; [reflexivity|].
      rewrite send_all_cons.
      replace (send m s0) with s0; [exact (IH s0 Hd0 Hf0)|].
      unfold send. rewrite Message_ready by exact Hd0. rewrite Hf0.
      symmetry. apply EmitIPCEvent_unregistered. exact Hipc. }
    apply Hall; [exact Hready|exact Hf].
Qed.

(** ** Runs of bind requests *)

Lemma bind_all_cons (r : PendingReceiver) (rs : list PendingReceiver)
  (s : State) :
  bind_all (r :: rs) s = bind_all rs (BindTo r s).
Proof. reflexivity. Qed.

(** X7: any number of bind requests before the document element exists: the
    last one is left in the pending slot, every earlier one has been
    closed, in order, and nothing has been bound. *)
Theorem last_early_bind_wins
  (rs : list PendingReceiver) (r : PendingReceiver) (s : State) :
  document_created_ s = false ->
  pending_receiver_ (bind_all (rs ++ [r]) s) = Some r /\
  receiver_ (bind_all (rs ++ [r]) s) = receiver_ s /\
  mojo_log (bind_all (rs ++ [r]) s) =
    mojo_log s ++ closed_of (pending_receiver_ s) ++ map EndpointClosed rs.
Proof.
  revert s. induction rs as [|e rs IH]; intros s Hgate.
  - cbn [app map bind_all fold_left]. rewrite app_nil_r.
    destruct s as [dc q rc [p|] wf calls ml]; cbn in Hgate; subst dc;
      unfold_methods; cbn [closed_of]; rewrite ?app_nil_r;
      repeat split; reflexivity.
  - cbn [app]. rewrite bind_all_cons.
    destruct (IH (BindTo e s)) as (H1 & H2 & H3).
    + destruct s as [dc q rc [p|] wf calls ml]; cbn in Hgate; subst dc;
        reflexivity.
    + rewrite H1, H2, H3.
      destruct s as [dc q rc [p|] wf calls ml]; cbn in Hgate; subst dc;
        unfold_methods; cbn [closed_of map app]; rewrite <- ?app_assoc;
        repeat split; reflexivity.
Qed.

(** X8: any number of bind requests once the document element exists: the
    last one is the active binding, with the disconnect handler; every
    earlier one was bound and then closed before the next was bound; the
    pending slot is not touched. *)
Theorem last_ready_bind_wins
  (rs : list PendingReceiver) (r : PendingReceiver) (s : State) :
  document_created_ s = true ->
  receiver_ (bind_all (rs ++ [r]) s) =
    {| bound_endpoint := Some r;
       disconnect_handler := Some OnConnectionErrorHandler |} /\
  pending_receiver_ (bind_all (rs ++ [r]) s) = pending_receiver_ s /\
  mojo_log (bind_all (rs ++ [r]) s) =
    mojo_log s ++ closed_of (bound_endpoint (receiver_ s)) ++
    flat_map (fun e => [EndpointBound e; EndpointClosed e]) rs ++
    [EndpointBound r].
Proof.
  revert s. induction rs as [|e rs IH]; intros s Hready.
  - cbn [app flat_map bind_all fold_left].
    destruct s as [dc q [[b|] h] p wf calls ml]; cbn in Hready; subst dc;
      unfold_methods; cbn [closed_of app]; rewrite <- ?app_assoc;
      repeat split; reflexivity.
  - cbn [app]. rewrite bind_all_cons.
    destruct (IH (BindTo e s)) as (H1 & H2 & H3).
    + destruct s as [dc q [[b|] h] p wf calls ml]; cbn in Hready; subst dc;
        reflexivity.
    + rewrite H1, H2, H3.
      destruct s as [dc q [[b|] h] p wf calls ml]; cbn in Hready; subst dc;
        unfold_methods; cbn [closed_of flat_map app];
        rewrite <- ?app_assoc; repeat split; reflexivity.
Qed.

(** ** Invariants of the binding *)

Lemma step_exclusive (c : Call) (s s' : State) :
  exclusive_slots s -> step c s = Some s' -> exclusive_slots s'.
Proof.
  intros [Hn Hr] Hstep. destruct c; cbn in Hstep.
  - injection Hstep as <-.
    destruct s as [[|] q rc pr wf calls ml]; cbn in Hn, Hr.
    + rewrite (Hr eq_refl). destruct rc as [[b|] h];
        split; intros H; (discriminate H || reflexivity).
    + rewrite (Hn eq_refl). destruct pr;
        split; intros H; (discriminate H || reflexivity).
  - injection Hstep as <-.
    destruct (DidCreateDocumentElement_frame s) as (Hd & _ & _ & _ & Hp).
    split; intros H; [rewrite Hd in H; discriminate H|exact Hp].
  - destruct (ProcessPendingMessages_loop_frame _ _ Hstep)
      as (H1 & _ & H3 & H4 & _).
    split; rewrite H1; [rewrite H3|rewrite H4]; assumption.
  - injection Hstep as <-.
    destruct s as [[|] q rc pr wf calls ml]; cbn in Hn, Hr.
    + rewrite (Hr eq_refl). destruct rc as [[b|] h];
        split; intros H; (discriminate H || reflexivity).
    + rewrite (Hn eq_refl).
      split; intros H; (discriminate H || reflexivity).
  - injection Hstep as <-.
    destruct s as [[|] q rc pr wf calls ml]; cbn in Hn, Hr.
    + rewrite (Hr eq_refl). destruct rc as [[b|] [[]|]];
        split; intros H; (discriminate H || reflexivity).
    + rewrite (Hn eq_refl).
      split; intros H; (discriminate H || reflexivity).
  - injection Hstep as <-.
    destruct (Message_frame internal' channel' arguments' sender_id' s)
      as (H1 & _ & H3 & H4 & _).
    split; rewrite H1; [rewrite H3|rewrite H4]; assumption.
  - injection Hstep as <-.
    assert (H : document_created_ (ReceivePostMessage channel' message s) =
                document_created_ s /\
                receiver_ (ReceivePostMessage channel' message s) =
                receiver_ s /\
                pending_receiver_ (ReceivePostMessage channel' message s) =
                pending_receiver_ s).
    { clear Hn Hr. open_state s; repeat split; reflexivity. }
    destruct H as (H1 & H3 & H4).
    split; rewrite H1; [rewrite H3|rewrite H4]; assumption.
Qed.

(** X9: the pending slot and the active binding are never both in use:
    starting from a state where nothing is bound before readiness and
    nothing is pending after it, every call keeps it so, and the service
    holds at most one endpoint at any time. *)
Theorem slots_stay_exclusive (cs : list Call) (s s' : State) :
  exclusive_slots s ->
  run cs s = Some s' ->
  exclusive_slots s' /\ List.length (held_endpoints s') <= 1.
Proof.
  intros Hs Hrun.
  assert (Hs' : exclusive_slots s').
  { revert s Hs Hrun. induction cs as [|c cs IH]; intros s Hs Hrun;
      cbn in Hrun.
    - injection Hrun as <-. exact Hs.
    - destruct (step c s) as [s1|] eqn:Hstep; [|discriminate].
      exact (IH s1 (@step_exclusive c s s1 Hs Hstep) Hrun). }
  split; [exact Hs'|].
  destruct Hs' as [Hn Hr]. unfold held_endpoints.
  destruct (document_created_ s').
  - rewrite (Hr eq_refl). cbn. destruct (bound_endpoint (receiver_ s'));
      cbn; lia.
  - rewrite (Hn eq_refl). cbn. rewrite app_nil_r.
    destruct (pending_receiver_ s'); cbn; lia.
Qed.

Lemma step_wired (c : Call) (s s' : State) :
  wired (receiver_ s) -> step c s = Some s' -> wired (receiver_ s').
Proof.
  intros Hw Hstep. destruct c; cbn in Hstep.
  - injection Hstep as <-.
    destruct s as [[|] q [[b|] h] [p|] wf calls ml];
      solve [exact Hw | right; eexists; reflexivity].
  - injection Hstep as <-.
    destruct s as [dc q [[b|] h] [p|] wf calls ml];
      solve [exact Hw | right; eexists; reflexivity].
  - destruct (ProcessPendingMessages_loop_frame _ _ Hstep)
      as (_ & _ & H & _).
    rewrite H. exact Hw.
  - injection Hstep as <-.
    destruct s as [dc q [[b|] h] pr wf calls ml];
      solve [exact Hw | left; reflexivity].
  - injection Hstep as <-.
    destruct s as [dc q [[b|] [[]|]] pr wf calls ml];
      solve [exact Hw | left; reflexivity].
  - injection Hstep as <-.
    destruct (Message_frame internal' channel' arguments' sender_id' s)
      as (_ & _ & H & _).
    rewrite H. exact Hw.
  - injection Hstep as <-.
    assert (H : receiver_ (ReceivePostMessage channel' message s) =
                receiver_ s) by (clear Hw; open_state s; reflexivity).
    rewrite H. exact Hw.
Qed.

(** X10: a bound receiver always carries the disconnect handler: starting
    from a state where that is so, after any calls the loss of the remote
    end leaves the receiver unbound and closes the endpoint that was
    bound, and does what a direct [OnConnectionError] does. *)
Theorem remote_loss_always_unbinds (cs : list Call) (s s' : State) :
  wired (receiver_ s) ->
  run cs s = Some s' ->
  wired (receiver_ s') /\
  receiver_ (remote_end_lost s') = unbound_receiver /\
  mojo_log (remote_end_lost s') =
    mojo_log s' ++ closed_of (bound_endpoint (receiver_ s')) /\
  remote_end_lost s' = OnConnectionError s'.
Proof.
  intros Hs Hrun.
  assert (Hs' : wired (receiver_ s')).
  { revert s Hs Hrun. induction cs as [|c cs IH]; intros s Hs Hrun;
      cbn in Hrun.
    - injection Hrun as <-. exact Hs.
    - destruct (step c s) as [s1|] eqn:Hstep; [|discriminate].
      exact (IH s1 (@step_wired c s s1 Hs Hstep) Hrun). }
  split; [exact Hs'|].
  destruct s' as [dc q rc pr wf calls ml]. cbn in Hs'.
  destruct Hs' as [->|[e ->]]; unfold_methods; cbn [closed_of];
    rewrite ?app_nil_r; repeat split; reflexivity.
Qed.

(** ** What becomes of the endpoints *)

Lemma closed_endpoints_closed (log : list MojoEvent) (e : PendingReceiver) :
  closed_endpoints (log ++ [EndpointClosed e]) = closed_endpoints log ++ [e].
Proof. unfold closed_endpoints. rewrite flat_map_app. reflexivity. Qed.

Lemma closed_endpoints_bound (log : list MojoEvent) (e : PendingReceiver) :
  closed_endpoints (log ++ [EndpointBound e]) = closed_endpoints log.
Proof.
  unfold closed_endpoints. rewrite flat_map_app. cbn. apply app_nil_r.
Qed.

(** Cancels the head of the left list against its copy in the right one. *)
Ltac split_at a R k :=
  lazymatch R with
  | a :: ?t => k (@nil PendingReceiver) t
  | ?x :: ?t => split_at a t ltac:(fun l1 l2 => k (x :: l1) l2)
  end.

Ltac cancel_permutation :=
  repeat rewrite <- Permutation_cons_append; cbn [app];
  repeat lazymatch goal with
    | |- Permutation ?l ?l => reflexivity
    | |- Permutation (?a :: ?l) ?R =>
        split_at a R ltac:(fun l1 l2 =>
          change R with (l1 ++ a :: l2);
          apply Permutation_cons_app; cbn [app])
    end.

Lemma step_conserves (c : Call) (s s' : State) :
  step c s = Some s' ->
  Permutation
    (received_endpoints [c] ++
     held_endpoints s ++ closed_endpoints (mojo_log s))
    (held_endpoints s' ++ closed_endpoints (mojo_log s')).
Proof.
  intros Hstep. destruct c; cbn in Hstep;
    cbn [received_endpoints flat_map app].
  - injection Hstep as <-.
    destruct s as [[|] q [[b|] h] [p|] wf calls ml];
      unfold held_endpoints; unfold_methods; cbn [held_in app];
      rewrite ?closed_endpoints_bound, ?closed_endpoints_closed;
      cancel_permutation.
  - injection Hstep as <-.
    destruct s as [dc q [[b|] h] [p|] wf calls ml];
      unfold held_endpoints; unfold_methods; cbn [held_in app];
      rewrite ?closed_endpoints_bound, ?closed_endpoints_closed;
      cancel_permutation.
  - destruct (ProcessPendingMessages_loop_frame _ _ Hstep)
      as (_ & _ & H3 & H4 & H5).
    unfold held_endpoints. rewrite H3, H4, H5. reflexivity.
  - injection Hstep as <-.
    destruct s as [dc q [[b|] h] p wf calls ml];
      unfold held_endpoints; unfold_methods; cbn [held_in app];
      rewrite ?closed_endpoints_bound, ?closed_endpoints_closed;
      rewrite ?app_nil_r; [|reflexivity].
    destruct p; cbn [held_in app]; cancel_permutation.
  - injection Hstep as <-.
    destruct s as [dc q [[b|] [[]|]] p wf calls ml];
      unfold held_endpoints; unfold_methods; cbn [held_in app];
      rewrite ?closed_endpoints_bound, ?closed_endpoints_closed;
      rewrite ?app_nil_r; try reflexivity.
    destruct p; cbn [held_in app]; cancel_permutation.
  - injection Hstep as <-.
    destruct (Message_frame internal' channel' arguments' sender_id' s)
      as (_ & _ & H3 & H4 & H5).
    unfold held_endpoints. rewrite H3, H4, H5. reflexivity.
  - injection Hstep as <-.
    assert (H : receiver_ (ReceivePostMessage channel' message s) =
                receiver_ s /\
                pending_receiver_ (ReceivePostMessage channel' message s) =
                pending_receiver_ s /\
                mojo_log (ReceivePostMessage channel' message s) =
                mojo_log s) by (open_state s; repeat split; reflexivity).
    destruct H as (H3 & H4 & H5).
    unfold held_endpoints. rewrite H3, H4, H5. reflexivity.
Qed.

(** X11: no endpoint is lost and none is made up: after any run of calls the
    endpoints the service holds or has closed are, counted with
    multiplicity, those it held or had closed before together with those
    handed to [BindTo] during the run. *)
Theorem endpoints_are_conserved (cs : list Call) (s s' : State) :
  run cs s = Some s' ->
  Permutation
    (received_endpoints cs ++
     held_endpoints s ++ closed_endpoints (mojo_log s))
    (held_endpoints s' ++ closed_endpoints (mojo_log s')).
Proof.
  revert s. induction cs as [|c cs IH]; intros s Hrun; cbn in Hrun.
  - injection Hrun as <-. reflexivity.
  - destruct (step c s) as [s1|] eqn:Hstep; [|discriminate].
    replace (received_endpoints (c :: cs))
      with (received_endpoints [c] ++ received_endpoints cs)
      by (unfold received_endpoints; cbn [flat_map];
          rewrite app_nil_r; reflexivity).
    rewrite <- (IH s1 Hrun), <- (step_conserves c s Hstep).
    rewrite !app_assoc. apply Permutation_app_tail.
    apply Permutation_app_tail. apply Permutation_app_comm.
Qed.

(** ** What the destination is called with *)

Lemma onMessage_call_is_onMessage (context : V8Context) (o : V8Object)
  (i : bool) (c : string) (ps : list (V8Value V8Object))
  (args : V8Value V8Object) (sid : Z) :
  is_onMessage_call (onMessage_call context o i c ps args sid).
Proof. split; [reflexivity|]. eexists _, _, _, _, _. reflexivity. Qed.

Lemma EmitIPCEvent_calls (context : V8Context) (i : bool) (c : string)
  (ps : list (V8Value V8Object)) (args : V8Value V8Object) (sid : Z)
  (s : State) :
  exists added : list FunctionCall,
    js_calls (EmitIPCEvent context i c ps args sid s) = js_calls s ++ added /\
    Forall is_onMessage_call added.
Proof.
  destruct (GetIpcObject context) as [o|] eqn:Hipc.
  - rewrite (@EmitIPCEvent_registered context o i c ps args sid s Hipc).
    eexists [_]. split; [reflexivity|].
    constructor; [apply onMessage_call_is_onMessage|constructor].
  - rewrite (@EmitIPCEvent_unregistered context i c ps args sid s Hipc).
    exists []. rewrite app_nil_r. split; [reflexivity|constructor].
Qed.

Lemma Message_calls (i : bool) (c : string) (a : CloneableMessage) (sid : Z)
  (s : State) :
  exists added : list FunctionCall,
    js_calls (Message i c a sid s) = js_calls s ++ added /\
    Forall is_onMessage_call added.
Proof.
  destruct (document_created_ s) eqn:Hgate.
  - rewrite Message_ready by exact Hgate.
    destruct (web_frame s); [apply EmitIPCEvent_calls|].
    exists []. rewrite app_nil_r. split; [reflexivity|constructor].
  - rewrite Message_not_ready by exact Hgate. cbn zeta.
    destruct (web_frame s).
    + apply (EmitIPCEvent_calls _ i c [] _ sid
               (set_pending_messages_ _ s)).
    + exists []. cbn. rewrite app_nil_r. split; [reflexivity|constructor].
Qed.

Lemma ProcessPendingMessages_loop_calls (fuel : nat) (s s' : State) :
  ProcessPendingMessages_loop fuel s = Some s' ->
  exists added : list FunctionCall,
    js_calls s' = js_calls s ++ added /\ Forall is_onMessage_call added.
Proof.
  assert (Hnil : forall s0 : State,
             exists added : list FunctionCall,
               js_calls s0 = js_calls s0 ++ added /\
               Forall is_onMessage_call added).
  { intros s0. exists []. rewrite app_nil_r. split; [reflexivity|constructor]. }
  revert s. induction fuel as [|fuel IH]; intros s Hloop; cbn in Hloop.
  - destruct (pending_messages_ s); [|discriminate].
    injection Hloop as <-. apply Hnil.
  - destruct (pending_messages_ s) as [|m rest].
    + injection Hloop as <-. apply Hnil.
    + destruct (IH _ Hloop) as (added2 & H2 & F2).
      destruct (Message_calls (internal m) (channel m) (arguments m)
                  (sender_id m) (set_pending_messages_ rest s))
        as (added1 & H1 & F1).
      exists (added1 ++ added2). split.
      * rewrite H2, H1, <- app_assoc. reflexivity.
      * apply Forall_app. split; assumption.
Qed.

Lemma step_calls (c : Call) (s s' : State) :
  step c s = Some s' ->
  exists added : list FunctionCall,
    js_calls s' = js_calls s ++ added /\
    Forall is_onMessage_call added /\
    (may_call_destination c = false -> added = []).
Proof.
  intros Hstep.
  assert (Hsame : js_calls s' = js_calls s ->
                  exists added : list FunctionCall,
                    js_calls s' = js_calls s ++ added /\
                    Forall is_onMessage_call added /\
                    (may_call_destination c = false -> added = [])).
  { intros H. exists []. rewrite app_nil_r.
    split; [exact H|]. split; [constructor|reflexivity]. }
  destruct c; cbn in Hstep.
  - injection Hstep as <-. apply Hsame.
    destruct s as [[|] q [[b|] h] [p|] wf calls ml]; reflexivity.
  - injection Hstep as <-. apply Hsame.
    destruct (DidCreateDocumentElement_frame s) as (_ & _ & _ & H & _).
    exact H.
  - destruct (ProcessPendingMessages_loop_calls _ _ Hstep)
      as (added & H & F).
    exists added. split; [exact H|]. split; [exact F|discriminate].
  - injection Hstep as <-. apply Hsame.
    destruct s as [dc q [[b|] h] p wf calls ml]; reflexivity.
  - injection Hstep as <-. apply Hsame.
    destruct s as [dc q [[b|] [[]|]] p wf calls ml]; reflexivity.
  - injection Hstep as <-.
    destruct (Message_calls internal' channel' arguments' sender_id' s)
      as (added & H & F).
    exists added. split; [exact H|]. split; [exact F|discriminate].
  - injection Hstep as <-. unfold ReceivePostMessage.
    destruct (web_frame s).
    + destruct (EmitIPCEvent_calls (GetContext w) false channel'
                  (map (EntangleAndInjectMessagePortChannel (GetContext w))
                     (ports message))
                  (V8Array [DeserializeV8Value (cloneable message)]) 0%Z s)
        as (added & H & F).
      exists added. split; [exact H|]. split; [exact F|discriminate].
    + exists []. rewrite app_nil_r.
      split; [reflexivity|]. split; [constructor|reflexivity].
Qed.

(** X12: the destination is only ever called through [onMessage] with the
    five arguments of [EmitIPCEvent]; calls already made are never taken
    back or reordered; and only [Message], [ReceivePostMessage] and the
    drain add any: binding, readiness and disconnects call nothing. *)
Theorem destination_sees_only_onMessage (cs : list Call) (s s' : State) :
  run cs s = Some s' ->
  exists added : list FunctionCall,
    js_calls s' = js_calls s ++ added /\
    Forall is_onMessage_call added /\
    (forallb (fun c => negb (may_call_destination c)) cs = true ->
     added = []).
Proof.
  revert s. induction cs as [|c cs IH]; intros s Hrun; cbn in Hrun.
  - injection Hrun as <-. exists []. rewrite app_nil_r.
    split; [reflexivity|]. split; [constructor|reflexivity].
  - destruct (step c s) as [s1|] eqn:Hstep; [|discriminate].
    destruct (step_calls c s Hstep) as (added1 & H1 & F1 & N1).
    destruct (IH s1 Hrun) as (added2 & H2 & F2 & N2).
    exists (added1 ++ added2). split; [|split].
    + rewrite H2, H1, <- app_assoc. reflexivity.
    + apply Forall_app. split; assumption.
    + cbn [forallb]. intros H. apply andb_prop in H. destruct H as [Hc Hcs].
      rewrite N1, N2; [reflexivity|exact Hcs|].
      destruct (may_call_destination c); [discriminate Hc|reflexivity].
Qed.

(** ** Before readiness *)

Lemma bound_endpoints_closed (log : list MojoEvent) (e : PendingReceiver) :
  bound_endpoints (log ++ [EndpointClosed e]) = bound_endpoints log.
Proof.
  unfold bound_endpoints. rewrite flat_map_app. cbn. apply app_nil_r.
Qed.

(** X13: as long as [DidCreateDocumentElement] has not been called no
    endpoint is ever bound: starting with the gate shut, nothing bound and
    no binding in the log, any run of other calls leaves the gate shut, the
    receiver unbound and the log without a binding. *)
Theorem nothing_bound_before_readiness (cs : list Call) (s s' : State) :
  document_created_ s = false ->
  receiver_ s = unbound_receiver ->
  bound_endpoints (mojo_log s) = [] ->
  ~ In CallDidCreateDocumentElement cs ->
  run cs s = Some s' ->
  document_created_ s' = false /\
  receiver_ s' = unbound_receiver /\
  bound_endpoints (mojo_log s') = [].
Proof.
  revert s. induction cs as [|c cs IH]; intros s Hgate Hrc Hlog Hnot Hrun;
    cbn in Hrun.
  - injection Hrun as <-. repeat split; assumption.
  - destruct (step c s) as [s1|] eqn:Hstep; [|discriminate].
    assert (Hnot' : ~ In CallDidCreateDocumentElement cs)
      by (intros H; apply Hnot; right; exact H).
    assert (H1 : document_created_ s1 = false /\
                 receiver_ s1 = unbound_receiver /\
                 bound_endpoints (mojo_log s1) = []).
    { destruct c; cbn in Hstep.
      - injection Hstep as <-.
        destruct s as [dc q rc [p|] wf calls ml]; cbn in Hgate, Hrc, Hlog;
          subst dc rc; unfold_methods;
          rewrite ?bound_endpoints_closed; repeat split;
          (reflexivity || exact Hlog).
      - exfalso. apply Hnot. left. reflexivity.
      - destruct (ProcessPendingMessages_loop_frame _ _ Hstep)
          as (G1 & _ & G3 & _ & G5).
        rewrite G1, G3, G5. repeat split; assumption.
      - injection Hstep as <-.
        destruct s as [dc q rc p wf calls ml]; cbn in Hgate, Hrc, Hlog;
          subst dc rc; repeat split; (reflexivity || exact Hlog).
      - injection Hstep as <-.
        destruct s as [dc q rc p wf calls ml]; cbn in Hgate, Hrc, Hlog;
          subst dc rc; repeat split; (reflexivity || exact Hlog).
      - injection Hstep as <-.
        destruct (Message_frame internal' channel' arguments' sender_id' s)
          as (G1 & _ & G3 & _ & G5).
        rewrite G1, G3, G5. repeat split; assumption.
      - injection Hstep as <-.
        assert (G : document_created_
                      (ReceivePostMessage channel' message s) =
                    document_created_ s /\
                    receiver_ (ReceivePostMessage channel' message s) =
                    receiver_ s /\
                    mojo_log (ReceivePostMessage channel' message s) =
                    mojo_log s).
        { clear. open_state s; repeat split; reflexivity. }
        destruct G as (G1 & G3 & G5).
        rewrite G1, G3, G5. repeat split; assumption. }
    destruct H1 as (Hg1 & Hr1 & Hl1).
    exact (IH s1 Hg1 Hr1 Hl1 Hnot' Hrun).
Qed.

End Facts.

(** * The properties at the concrete instance *)

(** C7, as the code behaves on the spec's scenario: [ping] is sent
    through [Message] to a fresh service, then the document element is
    created and the queue drained.  Whatever a moved-from payload is,
    [onMessage] has been called once already when [Message] returns, with
    that payload, and once more by the drain, with ["x"]: twice, not once. *)
Theorem ping_scenario_invoked_twice (moved : string -> string) :
  js_calls (Sample.buffered moved) = [Sample.ping_call moved (moved "x")] /\
  pending_messages_ (Sample.flipped moved) = [Sample.ping moved] /\
  js_calls (Sample.flipped moved) = [Sample.ping_call moved (moved "x")] /\
  exists s',
    ProcessPendingMessages (Sample.flipped moved) = Some s' /\
    pending_messages_ s' = [] /\
    js_calls s' =
      [Sample.ping_call moved (moved "x"); Sample.ping_call moved "x"] /\
    map (fun c => (call_name c, call_argv c)) (js_calls s') =
      [("onMessage",
        [V8Boolean false; V8String "ping"; V8Array [];
         V8String (moved "x"); V8Int32 5]);
       ("onMessage",
        [V8Boolean false; V8String "ping"; V8Array [];
         V8String "x"; V8Int32 5])].
Proof.
  repeat split. eexists. repeat split.
Qed.

(** C3, as stated, fails: [ping] is buffered, the document element is
    created, [pong] arrives.  The flip delivers nothing and leaves [ping]
    in the queue; [pong] is processed while [ping] is still there. *)
Lemma flip_alone_does_not_drain :
  pending_messages_ (Sample.flipped (fun _ => "")) = [Sample.ping _] /\
  js_calls (Sample.flipped (fun _ => "")) = js_calls (Sample.buffered _) /\
  pending_messages_ (send (Sample.pong _) (Sample.flipped (fun _ => ""))) =
    [Sample.ping _] /\
  js_calls (send (Sample.pong _) (Sample.flipped (fun _ => ""))) =
    js_calls (Sample.buffered _) ++ [Sample.pong_call _ "y"].
Proof.
  repeat split.
Qed.

(** ** The theorems applied *)

(** [ping] sent to a fresh service is queued and delivered at once. *)
Lemma Message_not_ready_witness :
  document_created_ (Sample.fresh (fun _ => "")) = false /\
  web_frame (Sample.fresh (fun _ => "")) = Some tt /\
  pending_messages_ (Sample.buffered (fun _ => "")) = [Sample.ping _] /\
  js_calls (Sample.buffered (fun _ => "")) = [Sample.ping_call _ ""].
Proof.
  split; [reflexivity|]. split; [reflexivity|].
  exact (@Message_not_ready_enqueues_and_delivers Sample.env0
           false "ping" "x" 5%Z (Sample.fresh _) tt "ipcNative"
           eq_refl eq_refl eq_refl).
Defined.

(** [ping] early, the flip, the drain, [pong] live: three calls. *)
Lemma early_messages_witness :
  document_created_ (Sample.fresh (fun _ => "")) = false /\
  pending_messages_ (Sample.fresh (fun _ => "")) = [] /\
  exists s3,
    ProcessPendingMessages
      (DidCreateDocumentElement
         (send_all [Sample.ping _] (Sample.fresh (fun _ => "")))) = Some s3 /\
    pending_messages_ (send_all [Sample.pong _] s3) = [] /\
    js_calls (send_all [Sample.pong _] s3) =
      [Sample.ping_call _ ""; Sample.ping_call _ "x"; Sample.pong_call _ "y"].
Proof.
  split; [reflexivity|]. split; [reflexivity|].
  exact (@early_messages_observed_twice Sample.env0
           [Sample.ping _] [Sample.pong _] (Sample.fresh _) tt "ipcNative"
           eq_refl eq_refl eq_refl eq_refl).
Defined.

(** The drain of a ready service holding [ping] and [pong]. *)
Lemma ProcessPendingMessages_witness :
  document_created_ Sample.flipped_two = true /\
  pending_messages_ Sample.flipped_two = [Sample.ping _; Sample.pong _] /\
  exists s',
    ProcessPendingMessages Sample.flipped_two = Some s' /\
    pending_messages_ s' = [] /\
    js_calls s' =
      js_calls Sample.flipped_two ++
      [Sample.ping_call _ "x"; Sample.pong_call _ "y"].
Proof.
  split; [reflexivity|]. split; [reflexivity|].
  destruct (@ProcessPendingMessages_drains_in_order Sample.env0
              Sample.flipped_two eq_refl)
    as (s' & Hrun & _ & Hq & _ & Hcalls).
  exists s'. split; [exact Hrun|]. split; [exact Hq|].
  exact (Hcalls tt "ipcNative" eq_refl eq_refl).
Defined.

(** The flip and the drain of the service holding [ping], then [pong]. *)
Lemma drain_after_flip_witness :
  web_frame (Sample.buffered (fun _ => "")) = Some tt /\
  exists s2,
    ProcessPendingMessages (Sample.flipped (fun _ => "")) = Some s2 /\
    pending_messages_ s2 = [] /\
    js_calls (send_all [Sample.pong _] s2) =
      js_calls (Sample.buffered (fun _ => "")) ++
      [Sample.ping_call _ "x"; Sample.pong_call _ "y"].
Proof.
  split; [reflexivity|].
  destruct (@drain_after_flip_precedes_live Sample.env0 [Sample.pong _]
              (Sample.buffered _) tt "ipcNative" eq_refl eq_refl)
    as (_ & _ & s2 & Hrun & Hq & _ & _ & Hcalls).
  exists s2. split; [exact Hrun|]. split; [exact Hq|exact Hcalls].
Defined.

(** Endpoints 1 and 2 requested before readiness: 1 is closed, 2 bound. *)
Lemma two_early_binds_witness :
  document_created_ (Sample.fresh (fun _ => "")) = false /\
  pending_receiver_
    (BindTo (2 : @PendingReceiver Sample.env0)
       (BindTo (1 : @PendingReceiver Sample.env0) (Sample.fresh _))) =
    Some 2 /\
  receiver_
    (DidCreateDocumentElement
       (BindTo (2 : @PendingReceiver Sample.env0)
          (BindTo (1 : @PendingReceiver Sample.env0) (Sample.fresh _)))) =
    Sample.active 2 /\
  mojo_log
    (DidCreateDocumentElement
       (BindTo (2 : @PendingReceiver Sample.env0)
          (BindTo (1 : @PendingReceiver Sample.env0) (Sample.fresh _)))) =
    [@EndpointClosed Sample.env0 1; @EndpointBound Sample.env0 2].
Proof.
  split; [reflexivity|].
  destruct (@two_early_binds_promote_the_second Sample.env0 1 2
              (Sample.fresh _) eq_refl)
    as (_ & (Hp2 & _) & (Hr3 & _ & Hlog)).
  split; [exact Hp2|]. split; [exact Hr3|exact Hlog].
Defined.

(** Endpoint 2 requested while endpoint 1 is active. *)
Lemma ready_bind_witness :
  document_created_ Sample.bound_to_1 = true /\
  bound_endpoint (receiver_ Sample.bound_to_1) = Some 1 /\
  receiver_ (BindTo (2 : @PendingReceiver Sample.env0) Sample.bound_to_1) =
    Sample.active 2 /\
  mojo_log (BindTo (2 : @PendingReceiver Sample.env0) Sample.bound_to_1) =
    [@EndpointBound Sample.env0 1; @EndpointClosed Sample.env0 1;
     @EndpointBound Sample.env0 2] /\
  receiver_
    (remote_end_lost
       (BindTo (2 : @PendingReceiver Sample.env0) Sample.bound_to_1)) =
    unbound_receiver.
Proof.
  split; [reflexivity|]. split; [reflexivity|].
  destruct (@ready_bind_activates_at_once Sample.env0 2 Sample.bound_to_1
              eq_refl) as (Hr & _ & Hlog & Hlost & _).
  split; [exact Hr|]. split; [exact Hlog|exact Hlost].
Defined.

(** A second [DidCreateDocumentElement] after the first and what follows. *)
Lemma second_readiness_transition_witness :
  exists s',
    run (CallDidCreateDocumentElement :: Sample.afterwards)
      (Sample.buffered (fun _ => "")) = Some s' /\
    DidCreateDocumentElement s' = s' /\
    pending_messages_ s' = [] /\
    ProcessPendingMessages s' = Some s'.
Proof.
  eexists. split; [reflexivity|].
  destruct (@second_readiness_transition_is_noop Sample.env0
              Sample.afterwards (Sample.buffered _) _ eq_refl)
    as (Hflip & Hdrain).
  split; [exact Hflip|]. apply Hdrain. left. reflexivity.
Defined.

(** [ping] sent to a ready service whose frame is gone. *)
Lemma null_frame_witness :
  web_frame Sample.orphaned = None /\
  document_created_ Sample.orphaned = true /\
  send (Sample.ping _) Sample.orphaned = Sample.orphaned /\
  ReceivePostMessage "greeting" Sample.hello Sample.orphaned =
    Sample.orphaned.
Proof.
  split; [reflexivity|]. split; [reflexivity|].
  destruct (@null_frame_drops_message Sample.env0 Sample.orphaned eq_refl)
    as (Hmsg & Hpost & _).
  split; [|exact (Hpost "greeting" Sample.hello)].
  destruct (Hmsg false "ping" ("x" : @CloneableMessage Sample.env0) 5%Z)
    as (_ & Hready & _).
  exact (Hready eq_refl).
Defined.

(** A post message with two ports, sent before the document element
    exists. *)
Lemma ReceivePostMessage_witness :
  document_created_ (Sample.fresh (fun _ => "")) = false /\
  web_frame (Sample.fresh (fun _ => "")) = Some tt /\
  js_calls (ReceivePostMessage "greeting" Sample.hello (Sample.fresh _)) =
    [@onMessage_call Sample.env0 tt "ipcNative" false "greeting"
       [V8Array [V8String "MessagePort"; V8Int32 4];
        V8Array [V8String "MessagePort"; V8Int32 9]]
       (V8Array [V8String "hello"]) 0%Z] /\
  pending_messages_
    (ReceivePostMessage "greeting" Sample.hello (Sample.fresh _)) = [].
Proof.
  split; [reflexivity|]. split; [reflexivity|].
  destruct (@ReceivePostMessage_bypasses_gate Sample.env0 "greeting"
              Sample.hello (Sample.fresh _) tt "ipcNative" eq_refl eq_refl)
    as (Hcalls & Hq & _).
  split; [exact Hcalls|exact Hq].
Defined.

(** ** The further properties applied *)

(** The first readiness transition and what follows leave the gate open. *)
Lemma gate_opens_witness :
  exists s' : @State Sample.env0,
    run (CallDidCreateDocumentElement :: Sample.afterwards)
      (Sample.buffered (fun _ => "")) = Some s' /\
    document_created_ s' = true.
Proof.
  eexists. split; [reflexivity|].
  apply (proj2 (@gate_opens_once_and_for_all Sample.env0
                  (CallDidCreateDocumentElement :: Sample.afterwards)
                  (Sample.buffered _) _ eq_refl)).
  right. left. reflexivity.
Defined.

(** [ping] then [pong] sent to a fresh service are queued in that order. *)
Lemma buffering_witness :
  document_created_ (Sample.fresh (fun _ => "")) = false /\
  pending_messages_
    (send_all [Sample.ping _; Sample.pong _] (Sample.fresh (fun _ => ""))) =
    [Sample.ping _; Sample.pong _].
Proof.
  split; [reflexivity|].
  exact (proj2 (@buffering_keeps_arrival_order Sample.env0
                  [Sample.ping _; Sample.pong _] (Sample.fresh _) eq_refl)).
Defined.

(** [ping] then [pong] sent to a ready service with an empty queue. *)
Lemma live_messages_witness :
  document_created_ Tour.opened = true /\
  pending_messages_ Tour.opened = [] /\
  pending_messages_ (send_all [Sample.ping _] Tour.opened) = [] /\
  js_calls (send_all [Sample.ping _; Sample.pong _] Tour.opened) =
    [Sample.ping_call _ "x"; Sample.pong_call _ "y"].
Proof.
  split; [reflexivity|]. split; [reflexivity|].
  destruct (@live_messages_never_queue Sample.env0
              [Sample.ping _; Sample.pong _] Tour.opened eq_refl eq_refl)
    as (Hq & Hcalls).
  split; [exact (Hq 1)|exact (Hcalls tt "ipcNative" eq_refl eq_refl)].
Defined.

(** A context without [ipcNative]: the drain loses [note] silently. *)
Lemma unregistered_ipcNative_witness :
  web_frame Bare.holding_note = Some tt /\
  pending_messages_ Bare.holding_note = [Bare.note] /\
  ProcessPendingMessages Bare.holding_note =
    Some (set_pending_messages_ [] Bare.holding_note) /\
  js_calls (set_pending_messages_ [] Bare.holding_note) = [] /\
  ReceivePostMessage "mail" Bare.letter Bare.holding_note =
    Bare.holding_note.
Proof.
  split; [reflexivity|]. split; [reflexivity|].
  destruct (@unregistered_ipcNative_drops_message Bare.env
              Bare.holding_note tt eq_refl eq_refl) as (_ & Hpost & Hdrain).
  split; [exact (Hdrain eq_refl)|].
  split; [reflexivity|exact (Hpost "mail" Bare.letter)].
Defined.

(** Endpoints 1, 2, 3 requested before readiness. *)
Lemma last_early_bind_witness :
  document_created_ (Sample.fresh (fun _ => "")) = false /\
  pending_receiver_
    (@bind_all Sample.env0 [1; 2; 3] (Sample.fresh _)) = Some 3 /\
  mojo_log (@bind_all Sample.env0 [1; 2; 3] (Sample.fresh _)) =
    [@EndpointClosed Sample.env0 1; @EndpointClosed Sample.env0 2].
Proof.
  split; [reflexivity|].
  destruct (@last_early_bind_wins Sample.env0 [1; 2] 3 (Sample.fresh _)
              eq_refl) as (Hp & _ & Hlog).
  split; [exact Hp|exact Hlog].
Defined.

(** Endpoints 2, 3, 4 requested while endpoint 1 is active. *)
Lemma last_ready_bind_witness :
  document_created_ Sample.bound_to_1 = true /\
  receiver_ (@bind_all Sample.env0 [2; 3; 4] Sample.bound_to_1) =
    Sample.active 4 /\
  mojo_log (@bind_all Sample.env0 [2; 3; 4] Sample.bound_to_1) =
    [@EndpointBound Sample.env0 1; @EndpointClosed Sample.env0 1;
     @EndpointBound Sample.env0 2; @EndpointClosed Sample.env0 2;
     @EndpointBound Sample.env0 3; @EndpointClosed Sample.env0 3;
     @EndpointBound Sample.env0 4].
Proof.
  split; [reflexivity|].
  destruct (@last_ready_bind_wins Sample.env0 [2; 3] 4 Sample.bound_to_1
              eq_refl) as (Hr & _ & Hlog).
  split; [exact Hr|exact Hlog].
Defined.

(** The run [Tour.binds] from a fresh service ends holding endpoint 4
    alone. *)
Lemma slots_stay_exclusive_witness :
  exclusive_slots (Sample.fresh (fun _ => "")) /\
  exists s' : @State Sample.env0,
    run Tour.binds (Sample.fresh (fun _ => "")) = Some s' /\
    held_endpoints s' = [4] /\
    exclusive_slots s' /\
    List.length (held_endpoints s') <= 1.
Proof.
  assert (H0 : exclusive_slots (Sample.fresh (fun _ => "")))
    by (split; intros _; reflexivity).
  split; [exact H0|].
  eexists. split; [reflexivity|]. split; [reflexivity|].
  exact (@slots_stay_exclusive Sample.env0 Tour.binds (Sample.fresh _) _
           H0 eq_refl).
Defined.

(** After [Tour.binds] the loss of the remote end releases endpoint 4. *)
Lemma remote_loss_witness :
  wired (receiver_ (Sample.fresh (fun _ => ""))) /\
  exists s' : @State Sample.env0,
    run Tour.binds (Sample.fresh (fun _ => "")) = Some s' /\
    bound_endpoint (receiver_ s') = Some 4 /\
    receiver_ (remote_end_lost s') = unbound_receiver /\
    mojo_log (remote_end_lost s') = mojo_log s' ++ [@EndpointClosed Sample.env0 4].
Proof.
  assert (H0 : wired (receiver_ (Sample.fresh (fun _ => ""))))
    by (left; reflexivity).
  split; [exact H0|].
  eexists. split; [reflexivity|]. split; [reflexivity|].
  destruct (@remote_loss_always_unbinds Sample.env0 Tour.binds
              (Sample.fresh _) _ H0 eq_refl) as (_ & Hr & Hlog & _).
  split; [exact Hr|exact Hlog].
Defined.

(** The four endpoints of [Tour.binds] are all accounted for. *)
Lemma endpoints_witness :
  exists s' : @State Sample.env0,
    run Tour.binds (Sample.fresh (fun _ => "")) = Some s' /\
    held_endpoints s' = [4] /\
    closed_endpoints (mojo_log s') = [1; 2; 3] /\
    Permutation [1; 2; 3; 4]
      (held_endpoints s' ++ closed_endpoints (mojo_log s')).
Proof.
  eexists. split; [reflexivity|]. split; [reflexivity|].
  split; [reflexivity|].
  exact (@endpoints_are_conserved Sample.env0 Tour.binds (Sample.fresh _) _
           eq_refl).
Defined.

(** [Tour.quiet] calls nothing; the readiness transition and what
    follows call [onMessage] only. *)
Lemma destination_witness :
  (exists s' : @State Sample.env0,
     run Tour.quiet (Sample.buffered (fun _ => "")) = Some s' /\
     js_calls s' = js_calls (Sample.buffered (fun _ => ""))) /\
  (exists s' : @State Sample.env0,
     run (CallDidCreateDocumentElement :: Sample.afterwards)
       (Sample.buffered (fun _ => "")) = Some s' /\
     Forall is_onMessage_call (js_calls s')).
Proof.
  split.
  - eexists. split; [reflexivity|].
    match goal with
    | |- js_calls ?T = _ =>
        destruct (@destination_sees_only_onMessage Sample.env0 Tour.quiet
                    (Sample.buffered _) T eq_refl) as (added & H & _ & Hnone)
    end.
    rewrite H, (Hnone eq_refl). apply app_nil_r.
  - eexists. split; [reflexivity|].
    match goal with
    | |- Forall _ (js_calls ?T) =>
        destruct (@destination_sees_only_onMessage Sample.env0
                    (CallDidCreateDocumentElement :: Sample.afterwards)
                    (Sample.buffered _) T eq_refl) as (added & H & F & _)
    end.
    rewrite H. apply Forall_app. split; [|exact F].
    repeat constructor. eexists _, _, _, _, _. reflexivity.
Defined.

(** Before readiness [Tour.early] binds nothing. *)
Lemma nothing_bound_witness :
  exists s' : @State Sample.env0,
    run Tour.early (Sample.fresh (fun _ => "")) = Some s' /\
    pending_receiver_ s' = Some 2 /\
    document_created_ s' = false /\
    receiver_ s' = unbound_receiver /\
    bound_endpoints (mojo_log s') = [].
Proof.
  eexists. split; [reflexivity|]. split; [reflexivity|].
  apply (@nothing_bound_before_readiness Sample.env0 Tour.early
           (Sample.fresh _) _ eq_refl eq_refl eq_refl).
  - cbn. intros H.
    repeat (destruct H as [H|H]; [discriminate H|]). exact H.
  - reflexivity.
Defined.
